(** * onelogin.saml.Response: a shallow embedding and its properties

    The development follows [src/onelogin/saml/Response.py].  The class
    [Response] wraps a parsed [samlp:Response] document and offers three
    operations: the [name_id] property ([_get_name_id]),
    [get_assertion_attribute_value] and [is_valid].

    Python values are modelled as follows.
    - [str] is the text type of Python 3, held as [string]: the UTF-8 bytes
      of the text, read back character by character where a library looks
      at characters ([str.strip], [strptime]); [None] is [option]'s [None].
    - An exception is a constructor of [exn]; a call has an [outcome]: it
      returns, it raises, or it leaves the part of a library that is
      modelled here ([Unmodelled]).
    - An [lxml] element is a tree [element] with its tag in Clark notation,
      its attribute dictionary, its [text] and its element children.
    - [element.xpath] is modelled on the strings the source passes to it: the
      expression is tokenised and parsed, for the fragment of XPath 1.0 that
      the source's queries (and simple variations of them) live in.
    - [datetime] is a record of its seven fields, compared field by field;
      [strptime] follows the regular expressions of CPython's [_strptime].
    - The injected [_clock] and [_verifier] are functions; [is_valid] logs
      every call it makes to them. *)

From Stdlib Require Import ZArith List String Ascii Bool Lia Permutation.
Import ListNotations.

Local Open Scope list_scope.
Local Open Scope string_scope.
Local Open Scope Z_scope.

(** ** Exceptions and outcomes *)

Inductive exn : Type :=
| ValueError
| OverflowError
| AttributeError
| XPathEvalError
| IndexError
| ResponseValidationError (msg : string)
| ResponseNameIDError (msg : string)
| ResponseConditionError (msg : string).

Inductive outcome (A : Type) : Type :=
| Return (a : A)
| Raise (e : exn)
| Unmodelled.

Arguments Return {A} a.
Arguments Raise {A} e.
Arguments Unmodelled {A}.

Definition bind {A B : Type} (m : outcome A) (k : A -> outcome B) : outcome B :=
  match m with
  | Return a => k a
  | Raise e => Raise e
  | Unmodelled => Unmodelled
  end.

Notation "x <- m ;; k" := (bind m (fun x => k))
  (at level 61, m at next level, right associativity).

(** [ResponseValidationError.__str__] and its two siblings:
    ['%s: %s' % (self.__doc__, self._msg)]. *)
Definition exn_str (e : exn) : string :=
  match e with
  | ResponseValidationError msg =>
      "There was a problem validating the response" ++ ": " ++ msg
  | ResponseNameIDError msg =>
      "There was a problem getting the name ID" ++ ": " ++ msg
  | ResponseConditionError msg =>
      "There was a problem validating a condition" ++ ": " ++ msg
  | _ => ""
  end.

(** ** Strings *)

Module Str.

Definition code (c : ascii) : Z := Z.of_N (N_of_ascii c).

Definition between (lo hi : Z) (c : ascii) : bool :=
  (lo <=? code c) && (code c <=? hi).

(** The double quote. *)
Definition dquote : ascii := "034".

Definition is_digit : ascii -> bool := between 48 57.
Definition is_upper : ascii -> bool := between 65 90.
Definition is_lower : ascii -> bool := between 97 122.
Definition is_letter (c : ascii) : bool := is_upper c || is_lower c.

(** The white space of ASCII: space, \t, \n, \v, \f, \r and the four
    separators FS, GS, RS, US. *)
Definition is_space (c : ascii) : bool :=
  (code c =? 32) || between 9 13 c || between 28 31 c.

Definition is_ascii (c : ascii) : bool := code c <? 128.

Definition lower (c : ascii) : ascii :=
  if is_upper c then ascii_of_N (Z.to_N (code c + 32)) else c.

(** *** Characters

    A character is its code point, with the bytes that hold it in the
    string.  [chars] reads a string as UTF-8; a byte that begins no
    well-formed sequence is taken for the character of its own value. *)

Definition continuation (c : ascii) : bool := between 128 191 c.

(** The six bits a continuation byte holds. *)
Definition low (c : ascii) : Z := code c - 128.

Definition two (a b : ascii) : Z := (code a - 192) * 64 + low b.

Definition three (a b c : ascii) : Z :=
  (code a - 224) * 4096 + low b * 64 + low c.

Definition four (a b c d : ascii) : Z :=
  (code a - 240) * 262144 + low b * 4096 + low c * 64 + low d.

Definition surrogate (cp : Z) : bool := (55296 <=? cp) && (cp <=? 57343).

Fixpoint chars (s : string) : list (Z * string) :=
  match s with
  | EmptyString => []
  | String a r =>
      match r with
      | EmptyString => [(code a, String a "")]
      | String b r1 =>
          if between 194 223 a && continuation b
          then (two a b, String a (String b "")) :: chars r1
          else
            match r1 with
            | EmptyString => (code a, String a "") :: chars r
            | String c r2 =>
                if between 224 239 a && continuation b && continuation c
                   && (2048 <=? three a b c) && negb (surrogate (three a b c))
                then (three a b c, String a (String b (String c ""))) :: chars r2
                else
                  match r2 with
                  | EmptyString => (code a, String a "") :: chars r
                  | String d r3 =>
                      if between 240 244 a && continuation b && continuation c
                         && continuation d && (65536 <=? four a b c d)
                         && (four a b c d <=? 1114111)
                      then (four a b c d,
                            String a (String b (String c (String d ""))))
                           :: chars r3
                      else (code a, String a "") :: chars r
                  end
            end
      end
  end.

(** The bytes of a sequence of characters. *)
Fixpoint bytes (l : list (Z * string)) : string :=
  match l with
  | [] => EmptyString
  | ch :: r => snd ch ++ bytes r
  end.

(** The white space of [str]: what [str.isspace] holds of, the characters
    that [str.strip()] removes. *)
Definition whitespace (cp : Z) : bool :=
  ((9 <=? cp) && (cp <=? 13)) || ((28 <=? cp) && (cp <=? 32))
  || (cp =? 133) || (cp =? 160) || (cp =? 5760)
  || ((8192 <=? cp) && (cp <=? 8202)) || (cp =? 8232) || (cp =? 8233)
  || (cp =? 8239) || (cp =? 8287) || (cp =? 12288).

Fixpoint lstrip (l : list (Z * string)) : list (Z * string) :=
  match l with
  | [] => []
  | ch :: r => if whitespace (fst ch) then lstrip r else l
  end.

Definition rstrip (l : list (Z * string)) : list (Z * string) :=
  rev (lstrip (rev l)).

(** [s.strip()] *)
Definition strip (s : string) : string := bytes (rstrip (lstrip (chars s))).

(** *** Decimal digits

    The characters that [\d] of a regular expression and [int] take for
    digits, besides those of ASCII: the first of every ten, from zero to
    nine (Unicode 14.0). *)
Definition decimals : list Z :=
  [ 1632; 1776; 1984; 2406; 2534; 2662; 2790; 2918; 3046; 3174; 3302; 3430;
    3558; 3664; 3792; 3872; 4160; 4240; 6112; 6160; 6470; 6608; 6784; 6800;
    6992; 7088; 7232; 7248; 42528; 43216; 43264; 43472; 43504; 43600; 44016;
    65296; 66720; 68912; 69734; 69872; 69942; 70096; 70384; 70736; 70864;
    71248; 71360; 71472; 71904; 72016; 72784; 73040; 73120; 92768; 92864;
    93008; 120782; 120792; 120802; 120812; 120822; 123200; 123632; 125264;
    130032 ].

(** The digit that [cp] is, when it is one outside ASCII. *)
Definition decimal (cp : Z) : option Z :=
  match find (fun z => (z <=? cp) && (cp <=? z + 9)) decimals with
  | Some z => Some (cp - z)
  | None => None
  end.

Fixpoint all (p : ascii -> bool) (s : string) : bool :=
  match s with
  | EmptyString => true
  | String c r => p c && all p r
  end.

Fixpoint contains (c : ascii) (s : string) : bool :=
  match s with
  | EmptyString => false
  | String c' r => Ascii.eqb c c' || contains c r
  end.

(** Splitting at the first occurrence of [c]. *)
Fixpoint split_at (c : ascii) (s : string) : option (string * string) :=
  match s with
  | EmptyString => None
  | String c' r =>
      if Ascii.eqb c c' then Some (EmptyString, r)
      else match split_at c r with
           | Some (a, b) => Some (String c' a, b)
           | None => None
           end
  end.

End Str.

(** ** The document tree

    [tag] is in Clark notation, as [lxml] has it:
    ["{urn:oasis:names:tc:SAML:2.0:assertion}Conditions"].  [text] is the
    text before the first child, [None] when there is none. *)

#[warnings="-register-all"]
Inductive element : Type :=
| Element (tag : string) (attrib : list (string * string))
          (text : option string) (children : list element).

Definition tag (e : element) : string :=
  match e with Element t _ _ _ => t end.
Definition attrib (e : element) : list (string * string) :=
  match e with Element _ a _ _ => a end.
Definition text (e : element) : option string :=
  match e with Element _ _ t _ => t end.
Definition children (e : element) : list element :=
  match e with Element _ _ _ c => c end.

(** [d.get(key, None)] on a dictionary with string keys. *)
Fixpoint dict_get (d : list (string * string)) (key : string) : option string :=
  match d with
  | [] => None
  | (k, v) :: r => if String.eqb k key then Some v else dict_get r key
  end.

Definition namespaces : list (string * string) :=
  [ ("samlp", "urn:oasis:names:tc:SAML:2.0:protocol");
    ("saml", "urn:oasis:names:tc:SAML:2.0:assertion") ].

(** ** XPath

    [element.xpath(path, namespaces=...)], for expressions of the shape

      path      ::= '/' steps | steps
      steps     ::= step ('/' step)*
      step      ::= QName predicate*
      predicate ::= '[' operand ']' | '[' operand '=' operand ']'
      operand   ::= Literal | '@' NCName

    with the lexical structure of XPath 1.0: white space separates tokens, a
    literal runs from a quote to the next quote of the same kind.  An
    expression with a literal that is never closed is not an XPath
    expression at all: the call raises [XPathEvalError].  Any other
    expression outside the grammar above is [Unmodelled]. *)

Module XPath.

Inductive token : Type :=
| TSlash | TLBracket | TRBracket | TAt | TEq
| TName (s : string)
| TLiteral (s : string)
| TOther (c : ascii).

Inductive lexstate : Type :=
| LIdle
| LName (acc : string)
| LLiteral (quote : ascii) (acc : string).

Definition is_quote (c : ascii) : bool :=
  Ascii.eqb c Str.dquote || Ascii.eqb c "'".

Definition is_name_start (c : ascii) : bool :=
  Str.is_letter c || Ascii.eqb c "_".

Definition is_name_char (c : ascii) : bool :=
  is_name_start c || Str.is_digit c
  || Ascii.eqb c "." || Ascii.eqb c "-" || Ascii.eqb c ":".

Definition is_blank (c : ascii) : bool :=
  Ascii.eqb c " " || Ascii.eqb c "009" || Ascii.eqb c "010" || Ascii.eqb c "013".

(** Reading [c] when no token is open. *)
Definition idle (c : ascii) (toks : list token) : lexstate * list token :=
  if is_quote c then (LLiteral c "", toks)
  else if is_blank c then (LIdle, toks)
  else if is_name_start c then (LName (String c ""), toks)
  else if Ascii.eqb c "/" then (LIdle, TSlash :: toks)
  else if Ascii.eqb c "[" then (LIdle, TLBracket :: toks)
  else if Ascii.eqb c "]" then (LIdle, TRBracket :: toks)
  else if Ascii.eqb c "@" then (LIdle, TAt :: toks)
  else if Ascii.eqb c "=" then (LIdle, TEq :: toks)
  else (LIdle, TOther c :: toks).

(** The tokens of an expression, [None] when a literal is left open.
    [toks] holds the tokens read so far, last one first. *)
Fixpoint lex (st : lexstate) (toks : list token) (s : string)
  : option (list token) :=
  match s with
  | EmptyString =>
      match st with
      | LIdle => Some (rev toks)
      | LName a => Some (rev (TName a :: toks))
      | LLiteral _ _ => None
      end
  | String c r =>
      match st with
      | LLiteral q a =>
          if Ascii.eqb c q then lex LIdle (TLiteral a :: toks) r
          else lex (LLiteral q (a ++ String c "")) toks r
      | LName a =>
          if is_name_char c then lex (LName (a ++ String c "")) toks r
          else let '(st', toks') := idle c (TName a :: toks) in lex st' toks' r
      | LIdle =>
          let '(st', toks') := idle c toks in lex st' toks' r
      end
  end.

Inductive operand : Type :=
| OLiteral (s : string)
| OAttribute (name : string).

Inductive predicate : Type :=
| PTest (a : operand)
| PEqual (a b : operand).

Record step : Type := { step_name : string; step_predicates : list predicate }.

Record location_path : Type := { absolute : bool; steps : list step }.

Definition parse_operand (toks : list token) : option (operand * list token) :=
  match toks with
  | TLiteral s :: r => Some (OLiteral s, r)
  | TAt :: TName n :: r =>
      if Str.contains ":" n then None else Some (OAttribute n, r)
  | _ => None
  end.

(** One predicate, the opening bracket already read. *)
Definition parse_predicate (toks : list token) : option (predicate * list token) :=
  match parse_operand toks with
  | Some (a, TRBracket :: r) => Some (PTest a, r)
  | Some (a, TEq :: r) =>
      match parse_operand r with
      | Some (b, TRBracket :: r') => Some (PEqual a b, r')
      | _ => None
      end
  | _ => None
  end.

Fixpoint parse_predicates (fuel : nat) (toks : list token)
  : option (list predicate * list token) :=
  match fuel, toks with
  | S fuel', TLBracket :: r =>
      match parse_predicate r with
      | Some (p, r') =>
          match parse_predicates fuel' r' with
          | Some (ps, r'') => Some (p :: ps, r'')
          | None => None
          end
      | None => None
      end
  | _, _ => Some ([], toks)
  end.

Fixpoint parse_steps (fuel : nat) (toks : list token) : option (list step) :=
  match fuel, toks with
  | S fuel', TName n :: r =>
      match parse_predicates (List.length r) r with
      | Some (ps, []) => Some [ {| step_name := n; step_predicates := ps |} ]
      | Some (ps, TSlash :: r') =>
          match parse_steps fuel' r' with
          | Some sts => Some ({| step_name := n; step_predicates := ps |} :: sts)
          | None => None
          end
      | _ => None
      end
  | _, _ => None
  end.

Definition parse (toks : list token) : option location_path :=
  match toks with
  | TSlash :: r =>
      match parse_steps (List.length r) r with
      | Some sts => Some {| absolute := true; steps := sts |}
      | None => None
      end
  | _ =>
      match parse_steps (List.length toks) toks with
      | Some sts => Some {| absolute := false; steps := sts |}
      | None => None
      end
  end.

Definition starts_name (s : string) : bool :=
  match s with
  | String c _ => is_name_start c
  | EmptyString => false
  end.

(** The expanded name of a QName, with the prefixes of [ns]: a name with
    no prefix is in no namespace; a local part that begins like no name
    (with a digit, a dot or a hyphen) makes the expression invalid, and a
    prefix that [ns] does not bind is an error. *)
Definition expand (ns : list (string * string)) (qname : string) : outcome string :=
  match Str.split_at ":" qname with
  | None => Return qname
  | Some (prefix, local) =>
      if String.eqb prefix "" || String.eqb local "" || Str.contains ":" local
      then Unmodelled
      else if negb (starts_name local) then Raise XPathEvalError
      else match dict_get ns prefix with
           | Some uri => Return ("{" ++ uri ++ "}" ++ local)
           | None => Raise XPathEvalError
           end
  end.

Fixpoint expand_steps (ns : list (string * string)) (sts : list step)
  : outcome (list step) :=
  match sts with
  | [] => Return []
  | st :: r =>
      n <- expand ns (step_name st) ;;
      r' <- expand_steps ns r ;;
      Return ({| step_name := n; step_predicates := step_predicates st |} :: r')
  end.

(** The string-value of an operand at the context element [e]: an
    attribute that is absent is the empty node-set. *)
Definition value (e : element) (o : operand) : option string :=
  match o with
  | OLiteral s => Some s
  | OAttribute n => dict_get (attrib e) n
  end.

Definition holds (e : element) (p : predicate) : bool :=
  match p with
  | PTest (OLiteral s) => negb (String.eqb s "")
  | PTest (OAttribute n) =>
      match dict_get (attrib e) n with Some _ => true | None => false end
  | PEqual a b =>
      match value e a, value e b with
      | Some x, Some y => String.eqb x y
      | _, _ => false
      end
  end.

(** [st] has its name expanded already. *)
Definition matches (st : step) (e : element) : bool :=
  String.eqb (tag e) (step_name st) && forallb (holds e) (step_predicates st).

(** The child axis, step after step, in document order. *)
Fixpoint descend (sts : list step) (nodes : list element) : list element :=
  match sts with
  | [] => nodes
  | st :: r => descend r (filter (matches st) (flat_map children nodes))
  end.

(** The document node: the parent of the root element. *)
Definition document_node (root : element) : element :=
  Element "" [] None [root].

(** The characters [lxml] takes in an expression without more ado:
    printable ASCII, tab, line feed and carriage return. *)
Definition plain (c : ascii) : bool :=
  Str.between 32 126 c || Ascii.eqb c "009" || Ascii.eqb c "010" || Ascii.eqb c "013".

(** [ctx.xpath(path, namespaces=ns)], where [ctx] is an element of the
    tree whose root element is [root].  An absolute path starts at the
    document node whatever [ctx] is; a relative one starts at [ctx]. *)
Definition xpath (root ctx : element) (path : string) (ns : list (string * string))
  : outcome (list element) :=
  if negb (Str.all plain path) then Unmodelled
  else match lex LIdle [] path with
       | None => Raise XPathEvalError
       | Some toks =>
           match parse toks with
           | None => Unmodelled
           | Some lp =>
               sts <- expand_steps ns (steps lp) ;;
               Return (descend sts
                         (if absolute lp then [document_node root] else [ctx]))
           end
       end.

End XPath.

(** ** datetime

    A naive [datetime] is its seven fields; CPython compares two of them
    field by field, most significant first. *)

Record datetime : Type := {
  year : Z; month : Z; day : Z;
  hour : Z; minute : Z; second : Z; microsecond : Z
}.

Record timedelta : Type := { days : Z; seconds : Z; microseconds : Z }.

Definition is_leap (y : Z) : bool :=
  (y mod 4 =? 0) && (negb (y mod 100 =? 0) || (y mod 400 =? 0)).

Definition days_in_month (y m : Z) : Z :=
  if (m =? 2) then (if is_leap y then 29 else 28)
  else if (m =? 4) || (m =? 6) || (m =? 9) || (m =? 11) then 30
  else 31.

Definition in_range (lo hi x : Z) : bool := (lo <=? x) && (x <=? hi).

(** The values the [datetime] constructor accepts. *)
Definition valid (d : datetime) : bool :=
  in_range 1 9999 (year d) && in_range 1 12 (month d)
  && in_range 1 (days_in_month (year d) (month d)) (day d)
  && in_range 0 23 (hour d) && in_range 0 59 (minute d)
  && in_range 0 59 (second d) && in_range 0 999999 (microsecond d).

Definition fields (d : datetime) : list Z :=
  [year d; month d; day d; hour d; minute d; second d; microsecond d].

Fixpoint lex_lt (a b : list Z) : bool :=
  match a, b with
  | x :: a', y :: b' => (x <? y) || ((x =? y) && lex_lt a' b')
  | _, _ => false
  end.

(** [a < b] *)
Definition dt_lt (a b : datetime) : bool := lex_lt (fields a) (fields b).

(** [a >= b] *)
Definition dt_ge (a b : datetime) : bool := negb (dt_lt a b).

(** [a <= b] *)
Definition dt_le (a b : datetime) : bool := negb (dt_lt b a).

(** CPython's [normalize_pair]: carry [lo] into [hi] so that
    [0 <= lo < factor]. *)
Definition normalize_pair (hi lo factor : Z) : Z * Z :=
  (hi + lo / factor, lo mod factor).

(** CPython's [normalize_y_m_d], for a day that is at most one day away
    from its month; a longer way goes through ordinals and is not
    modelled. *)
Definition normalize_y_m_d (y m d : Z) : outcome (Z * Z * Z) :=
  let '(y, m0) := normalize_pair y (m - 1) 12 in
  let m := m0 + 1 in
  let dim := days_in_month y m in
  r <- (if in_range 1 dim d then Return (y, m, d)
        else if d =? 0 then
          (if 0 <? m - 1 then Return (y, m - 1, days_in_month y (m - 1))
           else Return (y - 1, 12, 31))
        else if d =? dim + 1 then
          (if 12 <? m + 1 then Return (y + 1, 1, 1) else Return (y, m + 1, 1))
        else Unmodelled) ;;
  let '(y', _, _) := r in
  if in_range 1 9999 y' then Return r else Raise OverflowError.

(** [d - td] *)
Definition datetime_sub (d : datetime) (td : timedelta) : outcome datetime :=
  let '(s, us) := normalize_pair (second d - seconds td)
                                 (microsecond d - microseconds td) 1000000 in
  let '(mi, s) := normalize_pair (minute d) s 60 in
  let '(h, mi) := normalize_pair (hour d) mi 60 in
  let '(dy, h) := normalize_pair (day d - days td) h 24 in
  ymd <- normalize_y_m_d (year d) (month d) dy ;;
  let '(y, m, dy) := ymd in
  Return {| year := y; month := m; day := dy;
            hour := h; minute := mi; second := s; microsecond := us |}.

(** *** Format strings

    The directives of the source's two formats, and [%%]. *)

Inductive directive : Type :=
| DYear | DMonth | DDay | DHour | DMinute | DSecond | DMicro
| DLit (c : ascii).

Definition directive_of (c : ascii) : option directive :=
  if Ascii.eqb c "Y" then Some DYear
  else if Ascii.eqb c "m" then Some DMonth
  else if Ascii.eqb c "d" then Some DDay
  else if Ascii.eqb c "H" then Some DHour
  else if Ascii.eqb c "M" then Some DMinute
  else if Ascii.eqb c "S" then Some DSecond
  else if Ascii.eqb c "f" then Some DMicro
  else if Ascii.eqb c "%" then Some (DLit "%")
  else None.

(** [None] for a directive other than these, and for white space, which
    [strptime] matches loosely. *)
Fixpoint directives (fmt : string) : option (list directive) :=
  match fmt with
  | EmptyString => Some []
  | String c r =>
      if Ascii.eqb c "%" then
        match r with
        | EmptyString => None
        | String k r' =>
            match directive_of k, directives r' with
            | Some d, Some ds => Some (d :: ds)
            | _, _ => None
            end
        end
      else if Str.is_space c then None
      else match directives r with
           | Some ds => Some (DLit c :: ds)
           | None => None
           end
  end.

Definition digit_char (n : Z) : ascii := ascii_of_N (Z.to_N (48 + n mod 10)).

(** [n] in decimal, [w] digits wide, padded with zeros. *)
Fixpoint pad (w : nat) (n : Z) : string :=
  match w with
  | O => EmptyString
  | S w' => pad w' (n / 10) ++ String (digit_char n) EmptyString
  end.

Definition render (d : datetime) (x : directive) : string :=
  match x with
  | DYear => pad 4 (year d)
  | DMonth => pad 2 (month d)
  | DDay => pad 2 (day d)
  | DHour => pad 2 (hour d)
  | DMinute => pad 2 (minute d)
  | DSecond => pad 2 (second d)
  | DMicro => pad 6 (microsecond d)
  | DLit c => String c EmptyString
  end.

(** [d.strftime(fmt)].  Before the year 1900 Python 2 raises and Python 3
    leaves the width of the year to the C library: not modelled. *)
Definition strftime (d : datetime) (fmt : string) : outcome string :=
  match directives fmt with
  | Some ds =>
      if year d <? 1900 then Unmodelled
      else Return (String.concat "" (map (render d) ds))
  | None => Unmodelled
  end.

(** *** strptime

    [_strptime] turns the format into a regular expression, one group per
    directive, and matches it at the start of the string, ignoring case.
    Each group is an alternation of short sequences of character classes,
    tried from left to right:

      %Y  \d\d\d\d                          %H  2[0-3]|[0-1]\d|\d
      %m  1[0-2]|0[1-9]|[1-9]               %M  [0-5]\d|\d
      %d  3[0-1]|[1-2]\d|0[1-9]|[1-9]| [1-9]  %S  6[0-1]|[0-5]\d|\d
      %f  [0-9]{1,6} *)

Definition charclass : Type := ascii -> bool.

Definition chr (c : ascii) : charclass := fun x => Ascii.eqb x c.
Definition rng (lo hi : ascii) : charclass :=
  fun x => Str.between (Str.code lo) (Str.code hi) x.
Definition anycase (c : ascii) : charclass :=
  fun x => Ascii.eqb (Str.lower x) (Str.lower c).

(** What [strptime] sees of a character: an ASCII character is itself, a
    decimal digit outside ASCII is the byte [128 + v] for its value [v], and
    every other character is the byte 255.  The regular expression tells
    no more of a character apart: its literals and its ranges are ASCII and
    match no other character, with case ignored too, and [\d] takes every
    decimal digit. *)
Definition sight (ch : Z * string) : ascii :=
  if fst ch <? 128 then ascii_of_N (Z.to_N (fst ch))
  else match Str.decimal (fst ch) with
       | Some v => ascii_of_N (Z.to_N (128 + v))
       | None => "255"%char
       end.

Fixpoint seen (l : list (Z * string)) : string :=
  match l with
  | [] => EmptyString
  | ch :: r => String (sight ch) (seen r)
  end.

(** [\d] *)
Definition digit : charclass :=
  fun x => Str.is_digit x || Str.between 128 137 x.

Definition alternatives (d : directive) : list (list charclass) :=
  let dg := digit in
  let d09 := rng "0" "9" in
  match d with
  | DYear => [[dg; dg; dg; dg]]
  | DMonth => [[chr "1"; rng "0" "2"]; [chr "0"; rng "1" "9"]; [rng "1" "9"]]
  | DDay => [[chr "3"; rng "0" "1"]; [rng "1" "2"; dg]; [chr "0"; rng "1" "9"];
             [rng "1" "9"]; [chr " "; rng "1" "9"]]
  | DHour => [[chr "2"; rng "0" "3"]; [rng "0" "1"; dg]; [dg]]
  | DMinute => [[rng "0" "5"; dg]; [dg]]
  | DSecond => [[chr "6"; rng "0" "1"]; [rng "0" "5"; dg]; [dg]]
  | DMicro => [[d09; d09; d09; d09; d09; d09]; [d09; d09; d09; d09; d09];
               [d09; d09; d09; d09]; [d09; d09; d09]; [d09; d09]; [d09]]
  | DLit c => [[anycase c]]
  end.

(** One sequence of classes against the start of [s]: the text it matched
    and what follows. *)
Fixpoint match_seq (cs : list charclass) (s : string) : option (string * string) :=
  match cs with
  | [] => Some (EmptyString, s)
  | p :: cs' =>
      match s with
      | EmptyString => None
      | String c r =>
          if p c then
            match match_seq cs' r with
            | Some (m, rest) => Some (String c m, rest)
            | None => None
            end
          else None
      end
  end.

(** [int(s)], for the texts the groups match: digits, after a blank. *)
Fixpoint to_int (acc : Z) (s : string) : Z :=
  match s with
  | EmptyString => acc
  | String c r =>
      if Str.is_digit c then to_int (acc * 10 + (Str.code c - 48)) r
      else if Str.between 128 137 c
      then to_int (acc * 10 + (Str.code c - 128)) r
      else to_int acc r
  end.

Fixpoint zeros (n : nat) : string :=
  match n with O => EmptyString | S n' => String "0" (zeros n') end.

(** The number a group stands for: [int(txt)], and for [%f] the text is
    first filled up with zeros on the right, to six digits. *)
Definition group_value (x : directive) (txt : string) : Z :=
  match x with
  | DMicro => to_int 0 (txt ++ zeros (6 - String.length txt))
  | _ => to_int 0 txt
  end.

Definition store (x : directive) (v : Z) (d : datetime) : datetime :=
  match x with
  | DYear => {| year := v; month := month d; day := day d; hour := hour d;
                minute := minute d; second := second d;
                microsecond := microsecond d |}
  | DMonth => {| year := year d; month := v; day := day d; hour := hour d;
                 minute := minute d; second := second d;
                 microsecond := microsecond d |}
  | DDay => {| year := year d; month := month d; day := v; hour := hour d;
               minute := minute d; second := second d;
               microsecond := microsecond d |}
  | DHour => {| year := year d; month := month d; day := day d; hour := v;
                minute := minute d; second := second d;
                microsecond := microsecond d |}
  | DMinute => {| year := year d; month := month d; day := day d; hour := hour d;
                  minute := v; second := second d;
                  microsecond := microsecond d |}
  | DSecond => {| year := year d; month := month d; day := day d; hour := hour d;
                  minute := minute d; second := v;
                  microsecond := microsecond d |}
  | DMicro => {| year := year d; month := month d; day := day d; hour := hour d;
                 minute := minute d; second := second d; microsecond := v |}
  | DLit _ => d
  end.

(** The group of [x] matched [txt]. *)
Definition assign (x : directive) (txt : string) (d : datetime) : datetime :=
  store x (group_value x txt) d.

(** The first alternative of [alts] after which [k] succeeds. *)
Fixpoint first_match {A : Type} (alts : list (list charclass)) (s : string)
  (k : string -> string -> option A) : option A :=
  match alts with
  | [] => None
  | a :: alts' =>
      match match_seq a s with
      | Some (txt, rest) =>
          match k txt rest with
          | Some r => Some r
          | None => first_match alts' s k
          end
      | None => first_match alts' s k
      end
  end.

(** The compiled format against the start of [s], with backtracking. *)
Fixpoint regex_match (ds : list directive) (s : string) (d : datetime)
  : option (datetime * string) :=
  match ds with
  | [] => Some (d, s)
  | x :: ds' =>
      first_match (alternatives x) s
        (fun txt rest => regex_match ds' rest (assign x txt d))
  end.

(** The fields a format leaves out. *)
Definition defaults : datetime :=
  {| year := 1900; month := 1; day := 1;
     hour := 0; minute := 0; second := 0; microsecond := 0 |}.

(** [datetime.strptime(data, fmt)] *)
Definition strptime (data fmt : string) : outcome datetime :=
  match directives fmt with
  | None => Unmodelled
  | Some ds =>
      match regex_match ds (seen (Str.chars data)) defaults with
      | None => Raise ValueError
      | Some (d, rest) =>
          if negb (String.eqb rest "") then Raise ValueError
          else if valid d then Return d
          else Raise ValueError
      end
  end.

(** ** The class [Response] *)

Record Response : Type := {
  _document : element;
  _signature : string;
  _issuer : option string
}.

(** [bool(self._issuer)]: [None] and the empty string are false. *)
Definition truthy (issuer : option string) : bool :=
  match issuer with
  | Some s => negb (String.eqb s "")
  | None => false
  end.

(** [Response.__init__], with the decoders it is handed. *)
Definition __init__ (_base64 : string -> outcome string)
  (_etree : string -> outcome element)
  (response signature : string) (issuer : option string) : outcome Response :=
  decoded_response <- _base64 response ;;
  document <- _etree decoded_response ;;
  Return {| _document := document; _signature := signature; _issuer := issuer |}.

(** [self._document.xpath(path, namespaces=namespaces)] *)
Definition document_xpath (self : Response) (path : string) : outcome (list element) :=
  XPath.xpath (_document self) (_document self) path namespaces.

(** [node.text.strip()] *)
Definition text_strip (node : element) : outcome string :=
  match text node with
  | Some t => Return (Str.strip t)
  | None => Raise AttributeError
  end.

Definition _parse_datetime (self : Response) (dt : string) : outcome datetime :=
  match strptime dt "%Y-%m-%dT%H:%M:%SZ" with
  | Raise ValueError => strptime dt "%Y-%m-%dT%H:%M:%S.%fZ"
  | r => r
  end.

Definition _get_name_id (self : Response) : outcome string :=
  result <- document_xpath self
              "/samlp:Response/saml:Assertion/saml:Subject/saml:NameID" ;;
  let length := Z.of_nat (List.length result) in
  if length >? 1 then Raise (ResponseNameIDError "Found more than one name ID")
  else if length =? 0 then Raise (ResponseNameIDError "Did not find a name ID")
  else match rev result with
       | node :: _ => text_strip node
       | [] => Raise IndexError
       end.

Definition name_id : Response -> outcome string := _get_name_id.

(** [[f(n) for n in l]] *)
Fixpoint comprehension {A B : Type} (f : A -> outcome B) (l : list A)
  : outcome (list B) :=
  match l with
  | [] => Return []
  | n :: r => v <- f n ;; vs <- comprehension f r ;; Return (v :: vs)
  end.

Definition get_assertion_attribute_value (self : Response) (attribute_name : string)
  : outcome (list string) :=
  result <- document_xpath self
              ("/samlp:Response/saml:Assertion/saml:AttributeStatement/saml:Attribute[@Name="
               ++ String Str.dquote attribute_name
               ++ String Str.dquote "]/saml:AttributeValue") ;;
  comprehension text_strip result.

(** *** is_valid

    The loop of [is_valid] over the [Conditions] elements carries the two
    flags [foundCondition] and [fountConditionAndAudience]. *)

Record flags : Type := {
  foundCondition : bool;
  fountConditionAndAudience : bool
}.

(** [self._issuer in audienceValues] *)
Definition issuer_in (issuer : option string) (audienceValues : list (option string))
  : bool :=
  match issuer with
  | Some i =>
      existsb (fun v => match v with
                        | Some t => String.eqb i t
                        | None => false
                        end) audienceValues
  | None => existsb (fun v => match v with None => true | Some _ => false end)
                    audienceValues
  end.

(** One turn of the loop; [continue] is [Return] with the flags as they
    are. *)
Definition loop_body (self : Response) (now : datetime) (condition : element)
  (fl : flags) : outcome flags :=
  let not_before := dict_get (attrib condition) "NotBefore" in
  let not_on_or_after := dict_get (attrib condition) "NotOnOrAfter" in
  not_before <-
    match not_before with
    | None =>
        d <- datetime_sub now {| days := 0; seconds := 5; microseconds := 0 |} ;;
        strftime d "%Y-%m-%dT%H:%M:%SZ"
    | Some s => Return s
    end ;;
  match not_on_or_after with
  | None => Return fl
  | Some not_on_or_after =>
      not_before <- _parse_datetime self not_before ;;
      not_on_or_after <- _parse_datetime self not_on_or_after ;;
      if dt_lt now not_before then Return fl
      else if dt_ge now not_on_or_after then Return fl
      else
        let fl := {| foundCondition := true;
                     fountConditionAndAudience := fountConditionAndAudience fl |} in
        if truthy (_issuer self) then
          audiences <-
            XPath.xpath (_document self) condition
              "/samlp:Response/saml:Assertion/saml:Conditions/saml:AudienceRestriction/saml:Audience"
              namespaces ;;
          let audienceValues := map text audiences in
          if issuer_in (_issuer self) audienceValues
          then Return {| foundCondition := foundCondition fl;
                         fountConditionAndAudience := true |}
          else Return fl
        else Return fl
  end.

Fixpoint loop (self : Response) (now : datetime) (conditions : list element)
  (fl : flags) : outcome flags :=
  match conditions with
  | [] => Return fl
  | condition :: rest =>
      fl' <- loop_body self now condition fl ;;
      loop self now rest fl'
  end.

(** The calls [is_valid] makes to what it is handed, in order. *)
Inductive call : Type :=
| CallClock
| CallVerifier (document : element) (signature : string).

(** A computation that logs its calls. *)
Definition logged (A : Type) : Type := list call -> outcome A * list call.

Definition lbind {A B : Type} (m : logged A) (k : A -> logged B) : logged B :=
  fun log =>
    match m log with
    | (Return a, log') => k a log'
    | (Raise e, log') => (Raise e, log')
    | (Unmodelled, log') => (Unmodelled, log')
    end.

Notation "x <~ m ;; k" := (lbind m (fun x => k))
  (at level 61, m at next level, right associativity).

Definition lift {A : Type} (m : outcome A) : logged A := fun log => (m, log).

Definition calling {A : Type} (c : call) (m : outcome A) : logged A :=
  fun log => (m, (log ++ [c])%list).

Section Collaborators.

(** [datetime.utcnow] and [SignatureVerifier.verify], the defaults of
    [is_valid]'s two parameters. *)
Variable utcnow : unit -> datetime.
Variable SignatureVerifier_verify : element -> string -> bool.

Definition is_valid (self : Response) (_clock : option (unit -> datetime))
  (_verifier : option (element -> string -> bool)) : logged bool :=
  let _clock := match _clock with Some c => c | None => utcnow end in
  let _verifier :=
    match _verifier with Some v => v | None => SignatureVerifier_verify end in
  conditions <~ lift (document_xpath self
                        "/samlp:Response/saml:Assertion/saml:Conditions") ;;
  now <~ calling CallClock (Return (_clock tt)) ;;
  fl <~ lift (loop self now conditions
                {| foundCondition := false;
                   fountConditionAndAudience := false |}) ;;
  if negb (foundCondition fl)
  then lift (Raise (ResponseConditionError "Timmig issue"))
  else if foundCondition fl && negb (fountConditionAndAudience fl)
  then lift (Raise (ResponseConditionError "Not valid Audience"))
  else calling (CallVerifier (_document self) (_signature self))
               (Return (_verifier (_document self) (_signature self))).

End Collaborators.

(** ** Documents to run the code on *)

Module Examples.

Definition samlp (local : string) : string :=
  "{urn:oasis:names:tc:SAML:2.0:protocol}" ++ local.
Definition saml (local : string) : string :=
  "{urn:oasis:names:tc:SAML:2.0:assertion}" ++ local.

Definition response (assertion : list element) : element :=
  Element (samlp "Response") [] None
    [Element (saml "Assertion") [] None assertion].

Definition audience (sp : string) : element :=
  Element (saml "AudienceRestriction") [] None
    [Element (saml "Audience") [] (Some sp) []].

Definition conditions (attrs : list (string * string)) (sps : list string)
  : element :=
  Element (saml "Conditions") attrs None (map audience sps).

Definition subject (name_ids : list (option string)) : element :=
  Element (saml "Subject") [] None
    (map (fun t => Element (saml "NameID") [] t []) name_ids).

Definition attribute (name : string) (values : list string) : element :=
  Element (saml "Attribute") [("Name", name)] None
    (map (fun v => Element (saml "AttributeValue") [] (Some v) []) values).

Definition statement (attrs : list element) : element :=
  Element (saml "AttributeStatement") [] None attrs.

Definition at_ (y m d h mi s us : Z) : datetime :=
  {| year := y; month := m; day := d;
     hour := h; minute := mi; second := s; microsecond := us |}.

(** Noon on 17 June 2011. *)
Definition noon : datetime := at_ 2011 6 17 12 0 0 0.

Definition clock (now : datetime) : option (unit -> datetime) :=
  Some (fun _ => now).

Definition verifier (b : bool) : option (element -> string -> bool) :=
  Some (fun _ _ => b).

Definition utcnow : unit -> datetime := fun _ => noon.
Definition verify : element -> string -> bool := fun _ _ => true.

Definition make (doc : element) (issuer : option string) : Response :=
  {| _document := doc; _signature := "fingerprint"; _issuer := issuer |}.

(** One condition block, valid for the whole day, for [sp.example.com]. *)
Definition today : element :=
  conditions [("NotBefore", "2011-06-17T00:00:00Z");
              ("NotOnOrAfter", "2011-06-18T00:00:00Z")] ["sp.example.com"].

(** A block that ran out the day before, for [other.example.com]. *)
Definition yesterday : element :=
  conditions [("NotBefore", "2011-06-16T00:00:00Z");
              ("NotOnOrAfter", "2011-06-17T00:00:00Z")] ["other.example.com"].

(** A block whose [NotOnOrAfter] is a date without a time. *)
Definition date_only : element :=
  conditions [("NotBefore", "2011-06-17T00:00:00Z");
              ("NotOnOrAfter", "2011-06-18")] ["sp.example.com"].

(** A block whose [NotOnOrAfter] is written the wrong way round. *)
Definition day_first : element :=
  conditions [("NotOnOrAfter", "18/06/2011 00:00:00")] ["sp.example.com"].

(** A block with no [NotBefore], running out at noon and a half second. *)
Definition open_start : element :=
  conditions [("NotOnOrAfter", "2011-06-17T12:00:00.500000Z")] ["sp.example.com"].

(** A block with no [NotOnOrAfter]. *)
Definition open_end : element :=
  conditions [("NotBefore", "2011-06-17T00:00:00Z")] ["sp.example.com"].

(** A block with neither bound. *)
Definition unbounded : element := conditions [] ["sp.example.com"].

Definition sp : option string := Some "sp.example.com".

(** An assertion with a subject and one attribute, [uid]. *)
Definition jdoe : element :=
  response [subject [Some " jdoe@example.com "];
            statement [attribute "uid" ["jdoe"]]].

(** Two attribute names to ask for: a double quote alone, and [uid]
    followed by the end of the literal, the end of the predicate and a
    predicate that always holds. *)
Definition lone_quote : string := String Str.dquote "".

Definition crafted : string :=
  "uid" ++ String Str.dquote "][" ++ String Str.dquote "x".

(** An assertion whose [NameID] element is empty. *)
Definition anonymous : element := response [subject [None]].

(** An assertion with two subjects, and one with an attribute value that is
    an empty element. *)
Definition twins : element :=
  response [subject [Some "a@example.com"; Some "b@example.com"]].

Definition hollow : element :=
  response [statement
              [Element (saml "Attribute") [("Name", "uid")] None
                 [Element (saml "AttributeValue") [] (Some "jdoe") [];
                  Element (saml "AttributeValue") [] None []]]].

(** An assertion with two attributes, one of them with two values. *)
Definition staff : element :=
  response [statement [attribute "uid" [" jdoe "];
                       attribute "group" ["admin"; " users"]]].

(** A block that begins at noon and one that ends at noon. *)
Definition from_noon : element :=
  conditions [("NotBefore", "2011-06-17T12:00:00Z");
              ("NotOnOrAfter", "2011-06-18T00:00:00Z")] ["sp.example.com"].

Definition until_noon : element :=
  conditions [("NotBefore", "2011-06-17T00:00:00Z");
              ("NotOnOrAfter", "2011-06-17T12:00:00Z")] ["sp.example.com"].

(** Decoders for the constructor: one that takes its input as it is and
    one that yields the block of today whatever the text. *)
Definition as_it_is (s : string) : outcome string := Return s.
Definition parsed (s : string) : outcome element := Return (response [today]).

End Examples.

(** ** Notions the statements below use *)

(** A step with a name, already expanded, and no predicate. *)
Definition named (t : string) : XPath.step :=
  {| XPath.step_name := t; XPath.step_predicates := [] |}.

(** The elements a chain of child steps reaches from the document node. *)
Definition reach (doc : element) (tags : list string) : list element :=
  XPath.descend (map named tags) [XPath.document_node doc].

(** The [Conditions] elements [is_valid] walks over. *)
Definition conditions_of (doc : element) : list element :=
  reach doc [Examples.samlp "Response"; Examples.saml "Assertion";
             Examples.saml "Conditions"].

(** The [Attribute] elements of the attribute statements. *)
Definition attributes_of (doc : element) : list element :=
  reach doc [Examples.samlp "Response"; Examples.saml "Assertion";
             Examples.saml "AttributeStatement"; Examples.saml "Attribute"].

(** The [NameID] elements of the subject. *)
Definition name_ids_of (doc : element) : list element :=
  reach doc [Examples.samlp "Response"; Examples.saml "Assertion";
             Examples.saml "Subject"; Examples.saml "NameID"].

(** The audience values below the elements [cs]. *)
Definition audiences_below (cs : list element) : list (option string) :=
  map text (XPath.descend [named (Examples.saml "AudienceRestriction");
                           named (Examples.saml "Audience")] cs).

(** [timedelta(0, 5, 0)] *)
Definition five_seconds : timedelta :=
  {| days := 0; seconds := 5; microseconds := 0 |}.

(** [d] with its microseconds dropped: what the whole-second format keeps. *)
Definition whole_second (d : datetime) : datetime :=
  {| year := year d; month := month d; day := day d; hour := hour d;
     minute := minute d; second := second d; microsecond := 0 |}.

(** The two formats of [_parse_datetime], compiled. *)
Definition seconds_format : list directive :=
  [DYear; DLit "-"; DMonth; DLit "-"; DDay; DLit "T";
   DHour; DLit ":"; DMinute; DLit ":"; DSecond; DLit "Z"].

Definition fraction_format : list directive :=
  [DYear; DLit "-"; DMonth; DLit "-"; DDay; DLit "T";
   DHour; DLit ":"; DMinute; DLit ":"; DSecond; DLit "."; DMicro; DLit "Z"].

(** A timestamp that neither format reads. *)
Definition unreadable (s : string) : Prop :=
  strptime s "%Y-%m-%dT%H:%M:%SZ" = Raise ValueError
  /\ strptime s "%Y-%m-%dT%H:%M:%S.%fZ" = Raise ValueError.

Definition is_return {A : Type} (m : outcome A) : bool :=
  match m with Return _ => true | _ => false end.

(** The lower bound of a condition, as the specification words it: the
    parsed [NotBefore], or five seconds before [now] when there is none. *)
Definition lower_bound (self : Response) (now : datetime) (c : element)
  : outcome datetime :=
  match dict_get (attrib c) "NotBefore" with
  | Some s => _parse_datetime self s
  | None => datetime_sub now five_seconds
  end.

(** A condition is in its window, as the specification words it:
    [NotOnOrAfter] is there and [lower <= now < upper]. *)
Definition in_window (self : Response) (now : datetime) (c : element) : bool :=
  match dict_get (attrib c) "NotOnOrAfter" with
  | None => false
  | Some s =>
      match lower_bound self now c, _parse_datetime self s with
      | Return lower, Return upper => dt_le lower now && dt_lt now upper
      | _, _ => false
      end
  end.

(** The timestamps that the loop parses on [c] can be read: those of a
    condition with [NotOnOrAfter]. *)
Definition readable (self : Response) (c : element) : bool :=
  match dict_get (attrib c) "NotOnOrAfter" with
  | None => true
  | Some s =>
      match dict_get (attrib c) "NotBefore" with
      | Some nb => is_return (_parse_datetime self nb)
      | None => true
      end
      && is_return (_parse_datetime self s)
  end.

(** A reading of the clock: a [datetime] after the year 1900, so that five
    seconds before it is a date, and one that [strftime] writes. *)
Definition clock_reading (now : datetime) : bool :=
  valid now && (1900 <? year now).

(** An argument of [is_valid], or its default when it is [None]. *)
Definition default {A : Type} (o : option A) (d : A) : A :=
  match o with Some a => a | None => d end.

(** The verifier calls in a log. *)
Definition verifier_calls (log : list call) : nat :=
  List.length (filter (fun c => match c with CallVerifier _ _ => true | _ => false end) log).

(** *** Devices of the proofs about [strptime] *)

(** [txt] is what the first alternative that matches takes, whatever
    follows [txt]. *)
Fixpoint picks (alts : list (list charclass)) (txt : string) : bool :=
  match alts with
  | [] => false
  | a :: alts' =>
      (List.length a <=? String.length txt)%nat
      && match match_seq a txt with
         | Some (t, EmptyString) => true
         | Some (_, String _ _) => false
         | None => picks alts' txt
         end
  end.

(** The directives that [strftime] writes with a fixed number of digits,
    and the values they take in a [datetime]. *)
Definition width (x : directive) : nat :=
  match x with
  | DYear => 4
  | DMicro => 6
  | DLit _ => 0
  | _ => 2
  end.

Definition least (x : directive) : Z :=
  match x with
  | DHour | DMinute | DSecond => 0
  | _ => 1
  end.

Definition greatest (x : directive) : Z :=
  match x with
  | DYear => 9999
  | DMonth => 12
  | DDay => 31
  | DHour => 23
  | DMinute | DSecond => 59
  | _ => 0
  end.

Fixpoint upto (n : nat) (from : Z) : list Z :=
  match n with
  | O => []
  | S k => from :: upto k (from + 1)
  end.

Definition reads_back (x : directive) (v : Z) : bool :=
  picks (alternatives x) (pad (width x) v)
  && (group_value x (pad (width x) v) =? v).


(** The [Attribute] elements of the attribute statements whose [Name] is
    exactly [name]. *)
Definition attributes_named (doc : element) (name : string) : list element :=
  filter (fun a => match dict_get (attrib a) "Name" with
                   | Some v => String.eqb v name
                   | None => false
                   end)
         (attributes_of doc).

(** Their [AttributeValue] children, in document order. *)
Definition values_of (doc : element) (name : string) : list element :=
  XPath.descend [named (Examples.saml "AttributeValue")] (attributes_named doc name).

(** [t.strip()] where [t] is a text, the empty string where there is none. *)
Definition stripped_text (e : element) : string :=
  match text e with Some t => Str.strip t | None => "" end.

(** What [is_valid] comes to at [now], by the conditions [cs] of the
    document: the error of an unreadable timestamp first, then the timing
    error, then the audience error, then the verifier. *)
Definition verdict (self : Response) (now : datetime) (answer : bool)
  : outcome bool * list call :=
  let cs := conditions_of (_document self) in
  if negb (forallb (readable self) cs) then (Raise ValueError, [CallClock])
  else if negb (existsb (in_window self now) cs)
  then (Raise (ResponseConditionError "Timmig issue"), [CallClock])
  else if truthy (_issuer self)
          && issuer_in (_issuer self) (audiences_below cs)
  then (Return answer,
        [CallClock; CallVerifier (_document self) (_signature self)])
  else (Raise (ResponseConditionError "Not valid Audience"), [CallClock]).

(** The exceptions the module defines. *)
Definition of_this_module (e : exn) : bool :=
  match e with
  | ResponseValidationError _ | ResponseNameIDError _
  | ResponseConditionError _ => true
  | _ => false
  end.

(** *** Devices of the proofs about a whole timestamp *)

(** After [txt], and before a character that is no digit, a group can take
    nothing but [txt]: an alternative that matches less leaves a digit
    behind, where the format goes on with a literal. *)
Fixpoint settles (alts : list (list charclass)) (txt : string) : bool :=
  match alts with
  | [] => true
  | a :: alts' =>
      (List.length a <=? String.length txt)%nat
      && match match_seq a txt with
         | Some (_, String c _) => Str.is_digit c
         | _ => true
         end
      && settles alts' txt
  end.

(** A literal of a format that no digit matches. *)
Definition no_digit (l : ascii) : bool := negb (Str.is_digit (Str.lower l)).

(** The continuation [k] fails where a digit comes next. *)
Definition stops_at_digits {A : Type} (k : string -> string -> option A) : Prop :=
  forall t c r, Str.is_digit c = true -> k t (String c r) = None.

(** The values of the two-digit and four-digit groups settle. *)
Definition settles_back (x : directive) (v : Z) : bool :=
  settles (alternatives x) (pad (width x) v).

(** *** Devices of the proofs about [strip] *)





(** * Properties *)

(** ** The error monad *)

Lemma bind_Return {A B : Type} (m : outcome A) (k : A -> outcome B) (a : A) :
  m = Return a -> bind m k = k a.
Proof. intros ->. reflexivity. Qed.

Lemma bind_Raise {A B : Type} (m : outcome A) (k : A -> outcome B) (e : exn) :
  m = Raise e -> bind m k = Raise e.
Proof. intros ->. reflexivity. Qed.

(** ** The fixed queries *)

Lemma descend_app (a b : list XPath.step) (nodes : list element) :
  XPath.descend (a ++ b)%list nodes = XPath.descend b (XPath.descend a nodes).
Proof.
  revert nodes. induction a as [|st a IH]; intros nodes; simpl; [reflexivity|].
  apply IH.
Qed.

Lemma descend_nil (sts : list XPath.step) : XPath.descend sts [] = [].
Proof. induction sts as [|st sts IH]; simpl; [reflexivity|exact IH]. Qed.

Lemma xpath_conditions (self : Response) :
  document_xpath self "/samlp:Response/saml:Assertion/saml:Conditions"
  = Return (conditions_of (_document self)).
Proof. reflexivity. Qed.

Lemma xpath_name_ids (self : Response) :
  document_xpath self "/samlp:Response/saml:Assertion/saml:Subject/saml:NameID"
  = Return (name_ids_of (_document self)).
Proof. reflexivity. Qed.

(** The audience query is absolute: whatever element it is asked of, it
    gathers the audiences of every [Conditions] element of the document. *)
Lemma xpath_audiences (doc condition : element) :
  XPath.xpath doc condition
    "/samlp:Response/saml:Assertion/saml:Conditions/saml:AudienceRestriction/saml:Audience"
    namespaces
  = Return (XPath.descend [named (Examples.saml "AudienceRestriction");
                           named (Examples.saml "Audience")]
              (conditions_of doc)).
Proof. reflexivity. Qed.

(** ** The attribute query *)

Lemma append_assoc (a b c : string) : (a ++ b) ++ c = a ++ (b ++ c).
Proof. induction a as [|x a IH]; simpl; [reflexivity|]. now rewrite IH. Qed.

Lemma append_empty_r (a : string) : a ++ "" = a.
Proof. induction a as [|x a IH]; simpl; [reflexivity|]. now rewrite IH. Qed.

Lemma all_app (p : ascii -> bool) (a b : string) :
  Str.all p (a ++ b) = Str.all p a && Str.all p b.
Proof.
  induction a as [|x a IH]; simpl; [reflexivity|].
  now rewrite IH, andb_assoc.
Qed.

(** Inside a literal the lexer runs on to the closing quote. *)
Lemma lex_literal (name : string) (q : ascii) :
  Str.contains q name = false ->
  forall (acc : string) (toks : list XPath.token) (rest : string),
    XPath.lex (XPath.LLiteral q acc) toks (name ++ rest)
    = XPath.lex (XPath.LLiteral q (acc ++ name)) toks rest.
Proof.
  induction name as [|c name IH]; intros Hq acc toks rest; simpl.
  - now rewrite append_empty_r.
  - simpl in Hq. apply orb_false_elim in Hq. destruct Hq as [Hc Hq].
    rewrite Ascii.eqb_sym in Hc. rewrite Hc, (IH Hq), append_assoc. reflexivity.
Qed.

(** The query of [get_assertion_attribute_value], for a name that closes
    no literal: the values of the attributes of that very name. *)
Lemma xpath_attribute (self : Response) (name : string) :
  Str.all XPath.plain name = true ->
  Str.contains Str.dquote name = false ->
  document_xpath self
    ("/samlp:Response/saml:Assertion/saml:AttributeStatement/saml:Attribute[@Name="
     ++ String Str.dquote name ++ String Str.dquote "]/saml:AttributeValue")
  = Return
      (XPath.descend
         [ {| XPath.step_name := Examples.saml "Attribute";
              XPath.step_predicates :=
                [XPath.PEqual (XPath.OAttribute "Name") (XPath.OLiteral name)] |};
           named (Examples.saml "AttributeValue") ]
         (reach (_document self)
            [Examples.samlp "Response"; Examples.saml "Assertion";
             Examples.saml "AttributeStatement"])).
Proof.
  intros Hplain Hquote. unfold document_xpath, XPath.xpath.
  match goal with
  | |- context [?p ++ String Str.dquote name ++ ?s] =>
      change (p ++ String Str.dquote name ++ s)
        with ((p ++ String Str.dquote "") ++ name ++ s)
  end.
  rewrite !all_app, Hplain.
  match goal with
  | |- context [XPath.lex XPath.LIdle [] (?p ++ name ++ ?s)] =>
      change (XPath.lex XPath.LIdle [] (p ++ name ++ s))
        with (XPath.lex (XPath.LLiteral Str.dquote "")
                [XPath.TEq; XPath.TName "Name"; XPath.TAt; XPath.TLBracket;
                 XPath.TName "saml:Attribute"; XPath.TSlash;
                 XPath.TName "saml:AttributeStatement"; XPath.TSlash;
                 XPath.TName "saml:Assertion"; XPath.TSlash;
                 XPath.TName "samlp:Response"; XPath.TSlash]
                (name ++ s))
  end.
  rewrite (lex_literal name Str.dquote Hquote).
  reflexivity.
Qed.

(** ** Characters *)

Lemma chars_ascii (a : ascii) (r : string) :
  Str.is_ascii a = true ->
  Str.chars (String a r) = (Str.code a, String a "") :: Str.chars r.
Proof.
  intros Ha. unfold Str.is_ascii in Ha. apply Z.ltb_lt in Ha.
  assert (H2 : Str.between 194 223 a = false)
    by (unfold Str.between; apply andb_false_iff; left; apply Z.leb_gt; lia).
  assert (H3 : Str.between 224 239 a = false)
    by (unfold Str.between; apply andb_false_iff; left; apply Z.leb_gt; lia).
  assert (H4 : Str.between 240 244 a = false)
    by (unfold Str.between; apply andb_false_iff; left; apply Z.leb_gt; lia).
  cbn [Str.chars]. destruct r as [|b [|c [|d r3]]];
    rewrite ?H2, ?H3, ?H4; reflexivity.
Qed.

Lemma code_bounds (a : ascii) : 0 <= Str.code a < 256.
Proof.
  unfold Str.code. pose proof (N_ascii_bounded a). lia.
Qed.

(** What [strptime] sees of an ASCII text is the text. *)
Lemma seen_ascii (s : string) :
  Str.all Str.is_ascii s = true -> seen (Str.chars s) = s.
Proof.
  induction s as [|a s IH]; [reflexivity|]. cbn [Str.all].
  intros H. apply andb_true_iff in H. destruct H as [Ha Hs].
  rewrite (chars_ascii a s Ha). cbn [seen]. rewrite (IH Hs). f_equal.
  unfold sight. cbn [fst]. unfold Str.is_ascii in Ha. rewrite Ha.
  unfold Str.code. rewrite N2Z.id. apply ascii_N_embedding.
Qed.

Lemma digit_char_ascii (n : Z) : Str.is_ascii (digit_char n) = true.
Proof.
  unfold Str.is_ascii, Str.code, digit_char. apply Z.ltb_lt.
  rewrite N_ascii_embedding.
  - rewrite Z2N.id; pose proof (Z.mod_pos_bound n 10); lia.
  - pose proof (Z.mod_pos_bound n 10). lia.
Qed.

Lemma pad_ascii (w : nat) (n : Z) : Str.all Str.is_ascii (pad w n) = true.
Proof.
  revert n. induction w as [|w IH]; intros n; [reflexivity|].
  cbn [pad]. rewrite all_app, IH. cbn [Str.all].
  now rewrite digit_char_ascii.
Qed.

(** A text put together from digits and ASCII literals is ASCII. *)
Ltac ascii_text :=
  repeat (progress (rewrite ?all_app, ?pad_ascii; cbn [Str.all]));
  reflexivity.

(** ** datetime *)

Lemma days_in_month_bounds (y m : Z) : 28 <= days_in_month y m <= 31.
Proof.
  unfold days_in_month.
  destruct (m =? 2); [destruct (is_leap y); lia|].
  destruct ((m =? 4) || (m =? 6) || (m =? 9) || (m =? 11)); lia.
Qed.

Lemma valid_spec (d : datetime) :
  valid d = true <->
  1 <= year d <= 9999 /\ 1 <= month d <= 12
  /\ 1 <= day d <= days_in_month (year d) (month d)
  /\ 0 <= hour d <= 23 /\ 0 <= minute d <= 59
  /\ 0 <= second d <= 59 /\ 0 <= microsecond d <= 999999.
Proof.
  unfold valid, in_range. rewrite !andb_true_iff, !Z.leb_le. tauto.
Qed.

Lemma lex_lt_spec7 (a1 a2 a3 a4 a5 a6 a7 b1 b2 b3 b4 b5 b6 b7 : Z) :
  lex_lt [a1; a2; a3; a4; a5; a6; a7] [b1; b2; b3; b4; b5; b6; b7] = true <->
  a1 < b1 \/ a1 = b1 /\ (a2 < b2 \/ a2 = b2 /\ (a3 < b3 \/ a3 = b3 /\
  (a4 < b4 \/ a4 = b4 /\ (a5 < b5 \/ a5 = b5 /\ (a6 < b6 \/ a6 = b6 /\ a7 < b7))))).
Proof.
  simpl. rewrite !orb_true_iff, !andb_true_iff, !orb_true_iff, !Z.ltb_lt, !Z.eqb_eq.
  repeat (rewrite ?orb_true_iff, ?andb_true_iff, ?Z.ltb_lt, ?Z.eqb_eq).
  intuition discriminate.
Qed.

Lemma dt_lt_spec (a b : datetime) :
  dt_lt a b = true <->
  year a < year b \/ year a = year b /\ (month a < month b \/ month a = month b /\
  (day a < day b \/ day a = day b /\ (hour a < hour b \/ hour a = hour b /\
  (minute a < minute b \/ minute a = minute b /\
  (second a < second b \/ second a = second b /\ microsecond a < microsecond b))))).
Proof. unfold dt_lt, fields. apply lex_lt_spec7. Qed.

Lemma normalize_y_m_d_month (y m d : Z) :
  1 <= m <= 12 ->
  normalize_y_m_d y m d =
  bind (if in_range 1 (days_in_month y m) d then Return (y, m, d)
        else if d =? 0 then
          (if 0 <? m - 1 then Return (y, m - 1, days_in_month y (m - 1))
           else Return (y - 1, 12, 31))
        else if d =? days_in_month y m + 1 then
          (if 12 <? m + 1 then Return (y + 1, 1, 1) else Return (y, m + 1, 1))
        else Unmodelled)
       (fun r => let '(y', _, _) := r in
                 if in_range 1 9999 y' then Return r else Raise OverflowError).
Proof.
  intros Hm. unfold normalize_y_m_d, normalize_pair.
  rewrite (Z.div_small (m - 1) 12), (Z.mod_small (m - 1) 12) by lia.
  replace (y + 0) with y by lia. replace (m - 1 + 1) with m by lia.
  reflexivity.
Qed.

Lemma five_seconds_before (now d : datetime) :
  valid now = true ->
  datetime_sub now five_seconds = Return d ->
  valid d = true /\ dt_lt now (whole_second d) = false /\ dt_lt now d = false
  /\ year now - 1 <= year d.
Proof.
  intros Hv. apply valid_spec in Hv.
  destruct now as [y m dd h mi s us]. simpl in Hv.
  unfold datetime_sub, five_seconds, normalize_pair. simpl.
  rewrite normalize_y_m_d_month by lia.
  pose proof (days_in_month_bounds y m) as Bm.
  pose proof (days_in_month_bounds y (m - 1)) as Bm'.
  unfold in_range.
  Z.div_mod_to_equations.
  repeat (simpl; unfold in_range;
          match goal with
          | |- context [if ?b then _ else _] =>
              let E := fresh "E" in destruct b eqn:E
          end);
  simpl; intros Hd; try discriminate; injection Hd as <-;
  rewrite <- !not_true_iff_false, !dt_lt_spec, valid_spec; simpl;
  rewrite ?andb_true_iff, ?andb_false_iff, ?Z.leb_le, ?Z.leb_gt, ?Z.eqb_eq, ?Z.eqb_neq,
    ?Z.ltb_lt, ?Z.ltb_ge in *;
  try change (days_in_month (y - 1) 12) with 31; lia.
Qed.

Lemma five_seconds_before_exists (now : datetime) :
  valid now = true ->
  1 < year now ->
  exists d, datetime_sub now five_seconds = Return d.
Proof.
  intros Hv Hy. apply valid_spec in Hv.
  destruct now as [y m dd h mi s us]. simpl in Hv, Hy.
  unfold datetime_sub, five_seconds, normalize_pair. simpl.
  rewrite normalize_y_m_d_month by lia.
  pose proof (days_in_month_bounds y m) as Bm.
  unfold in_range.
  Z.div_mod_to_equations.
  repeat (simpl; unfold in_range;
          match goal with
          | |- context [if ?b then _ else _] =>
              let E := fresh "E" in destruct b eqn:E
          end);
  simpl; try (eexists; reflexivity); exfalso;
  rewrite ?andb_true_iff, ?andb_false_iff, ?Z.leb_le, ?Z.leb_gt, ?Z.eqb_eq, ?Z.eqb_neq,
    ?Z.ltb_lt, ?Z.ltb_ge in *; lia.
Qed.

Lemma directives_seconds : directives "%Y-%m-%dT%H:%M:%SZ" = Some seconds_format.
Proof. reflexivity. Qed.

Lemma directives_fraction : directives "%Y-%m-%dT%H:%M:%S.%fZ" = Some fraction_format.
Proof. reflexivity. Qed.

Lemma match_literal (c : ascii) (ds : list directive) (s : string) (d : datetime) :
  regex_match (DLit c :: ds) (String c s) d = regex_match ds s d.
Proof.
  simpl. unfold anycase. rewrite Ascii.eqb_refl. unfold assign. simpl.
  destruct (regex_match ds s d); reflexivity.
Qed.

Lemma match_seq_app (cs : list charclass) (txt s : string) :
  (List.length cs <= String.length txt)%nat ->
  match_seq cs (txt ++ s)
  = match match_seq cs txt with
    | Some (t, r) => Some (t, r ++ s)
    | None => None
    end.
Proof.
  revert txt. induction cs as [|p cs IH]; intros txt Hlen; simpl; [reflexivity|].
  destruct txt as [|c txt]; simpl in *; [lia|].
  destruct (p c); [|reflexivity].
  rewrite IH by lia. destruct (match_seq cs txt) as [[t r]|]; reflexivity.
Qed.

Lemma match_seq_whole (cs : list charclass) (txt t r : string) :
  match_seq cs txt = Some (t, r) -> txt = t ++ r.
Proof.
  revert txt t r. induction cs as [|p cs IH]; intros txt t r; simpl.
  - intros [= <- <-]. reflexivity.
  - destruct txt as [|c txt]; [discriminate|].
    destruct (p c); [|discriminate].
    destruct (match_seq cs txt) as [[t' r']|] eqn:E; [|discriminate].
    intros [= <- <-]. simpl. f_equal. now apply IH.
Qed.

Lemma picks_sound {A : Type} (alts : list (list charclass)) (txt : string) :
  picks alts txt = true ->
  forall (s : string) (k : string -> string -> option A) (r : A),
    k txt s = Some r -> first_match alts (txt ++ s) k = Some r.
Proof.
  induction alts as [|a alts IH]; simpl; [discriminate|].
  intros H s k r Hk. apply andb_true_iff in H. destruct H as [Hlen H].
  apply Nat.leb_le in Hlen. rewrite (match_seq_app a txt s Hlen).
  destruct (match_seq a txt) as [[t rest]|] eqn:E.
  - destruct rest; [|discriminate].
    apply match_seq_whole in E. rewrite append_empty_r in E. subst t.
    simpl. now rewrite Hk.
  - now apply IH.
Qed.

Lemma in_upto (n : nat) (from v : Z) :
  from <= v < from + Z.of_nat n -> In v (upto n from).
Proof.
  revert from. induction n as [|k IH]; intros from Hv; [lia|].
  simpl. destruct (Z.eq_dec from v) as [->|Hne]; [now left|].
  right. apply IH. lia.
Qed.

Lemma reads_back_all (x : directive) :
  forallb (reads_back x) (upto (Z.to_nat (greatest x - least x + 1)) (least x)) = true.
Proof. destruct x; vm_compute; reflexivity. Qed.

Lemma match_field (x : directive) (v : Z) :
  least x <= v <= greatest x ->
  forall (ds : list directive) (s : string) (d : datetime) r,
    regex_match ds s (store x v d) = Some r ->
    regex_match (x :: ds) (pad (width x) v ++ s) d = Some r.
Proof.
  intros Hv ds s d r H.
  pose proof (reads_back_all x) as Hall. rewrite forallb_forall in Hall.
  assert (Hr : reads_back x v = true) by (apply Hall, in_upto; lia).
  unfold reads_back in Hr.
  apply andb_true_iff in Hr. destruct Hr as [Hp Hg]. apply Z.eqb_eq in Hg.
  simpl. apply (picks_sound _ _ Hp). unfold assign. rewrite Hg. exact H.
Qed.

Lemma whole_second_valid (d : datetime) :
  valid d = true -> valid (whole_second d) = true.
Proof. rewrite !valid_spec. simpl. lia. Qed.

(** What [strftime] writes in the whole-second format, [strptime] reads
    back, up to the microseconds, which the format leaves out. *)
Lemma strftime_strptime (d : datetime) :
  valid d = true ->
  1900 <= year d ->
  exists s, strftime d "%Y-%m-%dT%H:%M:%SZ" = Return s
            /\ strptime s "%Y-%m-%dT%H:%M:%SZ" = Return (whole_second d).
Proof.
  intros Hv Hy. unfold strftime. rewrite directives_seconds.
  replace (year d <? 1900) with false by (symmetry; apply Z.ltb_ge; exact Hy).
  eexists. split; [reflexivity|].
  unfold strptime. rewrite directives_seconds.
  rewrite seen_ascii
    by (cbn [String.concat map render seconds_format]; ascii_text).
  assert (Hm : regex_match seconds_format
                 (String.concat "" (map (render d) seconds_format)) defaults
               = Some (whole_second d, "")).
  { pose proof Hv as Hv'. apply valid_spec in Hv'.
    pose proof (days_in_month_bounds (year d) (month d)).
    change (String.concat "" (map (render d) seconds_format))
      with (pad (width DYear) (year d) ++ String "-"
             (pad (width DMonth) (month d) ++ String "-"
               (pad (width DDay) (day d) ++ String "T"
                 (pad (width DHour) (hour d) ++ String ":"
                   (pad (width DMinute) (minute d) ++ String ":"
                     (pad (width DSecond) (second d) ++ String "Z" "")))))).
    unfold seconds_format.
    apply match_field; [simpl; lia|]. rewrite match_literal.
    apply match_field; [simpl; lia|]. rewrite match_literal.
    apply match_field; [simpl; lia|]. rewrite match_literal.
    apply match_field; [simpl; lia|]. rewrite match_literal.
    apply match_field; [simpl; lia|]. rewrite match_literal.
    apply match_field; [simpl; lia|]. rewrite match_literal.
    reflexivity. }
  rewrite Hm. simpl. now rewrite (whole_second_valid d Hv).
Qed.

(** ** Reading timestamps *)

Lemma strptime_outcome (s fmt : string) (ds : list directive) :
  directives fmt = Some ds ->
  strptime s fmt = Raise ValueError
  \/ exists d, strptime s fmt = Return d /\ valid d = true.
Proof.
  intros Hds. unfold strptime. rewrite Hds.
  destruct (regex_match ds _ defaults) as [[d rest]|]; [|now left].
  destruct (negb (String.eqb rest "")); [now left|].
  destruct (valid d) eqn:Hv; [right; now exists d|now left].
Qed.

Lemma parse_datetime_outcome (self : Response) (s : string) :
  _parse_datetime self s = Raise ValueError
  \/ exists d, _parse_datetime self s = Return d /\ valid d = true.
Proof.
  unfold _parse_datetime.
  destruct (strptime_outcome s _ _ directives_seconds) as [->|[d [-> Hv]]].
  - apply (strptime_outcome s _ _ directives_fraction).
  - right. now exists d.
Qed.

Lemma parse_datetime_unreadable (self : Response) (s : string) :
  unreadable s <-> _parse_datetime self s = Raise ValueError.
Proof.
  unfold unreadable, _parse_datetime. split.
  - intros [-> ->]. reflexivity.
  - destruct (strptime_outcome s _ _ directives_seconds) as [->|[d [-> Hv]]].
    + intros ->. now split.
    + discriminate.
Qed.

(** The default of an absent [NotBefore]: written by [strftime], read back
    by [_parse_datetime], it is five seconds before [now] without the
    microseconds, and not after [now]. *)
Lemma default_not_before (self : Response) (now : datetime) :
  clock_reading now = true ->
  exists d txt,
    datetime_sub now five_seconds = Return d
    /\ strftime d "%Y-%m-%dT%H:%M:%SZ" = Return txt
    /\ _parse_datetime self txt = Return (whole_second d)
    /\ dt_lt now (whole_second d) = false
    /\ dt_le d now = true.
Proof.
  intros Hc. apply andb_true_iff in Hc. destruct Hc as [Hv Hy].
  apply Z.ltb_lt in Hy.
  destruct (five_seconds_before_exists now Hv) as [d Hd]; [lia|].
  destruct (five_seconds_before now d Hv Hd) as [Hvd [Hlt [Hlt' Hyd]]].
  destruct (strftime_strptime d Hvd) as [txt [Hf Hp]]; [lia|].
  exists d, txt. repeat split; try assumption.
  - unfold _parse_datetime. now rewrite Hp.
  - unfold dt_le. now rewrite Hlt'.
Qed.

(** ** One turn of the loop *)

Lemma flags_eta (fl : flags) :
  {| foundCondition := foundCondition fl;
     fountConditionAndAudience := fountConditionAndAudience fl |} = fl.
Proof. now destruct fl. Qed.

(** One turn of the loop on a condition whose timestamps can be read:
    [foundCondition] is set when the condition is in its window, and
    [fountConditionAndAudience] when, besides, an issuer was given and is
    among the audiences of all the [Conditions] elements of the document. *)
Lemma loop_body_readable (self : Response) (now : datetime) (c : element)
  (fl : flags) :
  clock_reading now = true ->
  readable self c = true ->
  loop_body self now c fl
  = Return
      {| foundCondition := foundCondition fl || in_window self now c;
         fountConditionAndAudience :=
           fountConditionAndAudience fl
           || (in_window self now c && truthy (_issuer self)
               && issuer_in (_issuer self)
                    (audiences_below (conditions_of (_document self)))) |}.
Proof.
  intros Hc Hr.
  destruct (default_not_before self now Hc) as [d [txt [Hd [Hf [Hp [Hlt Hle]]]]]].
  unfold loop_body, readable, in_window, lower_bound in *.
  fold five_seconds. rewrite Hd. cbn [bind]. rewrite Hf.
  destruct (dict_get (attrib c) "NotOnOrAfter") as [noa|] eqn:Hnoa.
  - apply andb_true_iff in Hr. destruct Hr as [Hl Hu].
    destruct (_parse_datetime self noa) as [upper| |] eqn:Hupper; try discriminate.
    assert (Hbody : forall lower txt,
               _parse_datetime self txt = Return lower ->
               forall lower', dt_lt now lower = dt_lt now lower' ->
               (not_before <- _parse_datetime self txt ;;
                not_on_or_after <- Return upper ;;
                if dt_lt now not_before then Return fl
                else if dt_ge now not_on_or_after then Return fl
                else
                  let fl0 := {| foundCondition := true;
                               fountConditionAndAudience :=
                                 fountConditionAndAudience fl |} in
                  if truthy (_issuer self) then
                    audiences <-
                      XPath.xpath (_document self) c
                        "/samlp:Response/saml:Assertion/saml:Conditions/saml:AudienceRestriction/saml:Audience"
                        namespaces ;;
                    let audienceValues := map text audiences in
                    if issuer_in (_issuer self) audienceValues
                    then Return {| foundCondition := foundCondition fl0;
                                   fountConditionAndAudience := true |}
                    else Return fl0
                  else Return fl0)
               = Return
                   {| foundCondition :=
                        foundCondition fl || (dt_le lower' now && dt_lt now upper);
                      fountConditionAndAudience :=
                        fountConditionAndAudience fl
                        || (dt_le lower' now && dt_lt now upper
                            && truthy (_issuer self)
                            && issuer_in (_issuer self)
                                 (audiences_below (conditions_of (_document self)))) |}).
    { intros lower txt' Hp' lower' Hsame. rewrite Hp'. cbn [bind].
      rewrite xpath_audiences. cbn [bind]. unfold dt_le, dt_ge, audiences_below.
      rewrite <- Hsame.
      destruct fl as [fc fca]. simpl.
      destruct (dt_lt now lower); simpl;
        [now rewrite !orb_false_r|].
      destruct (dt_lt now upper); simpl;
        [|now rewrite !orb_false_r].
      destruct (truthy (_issuer self)); simpl;
        [|now rewrite !orb_false_r, ?orb_true_r].
      destruct (issuer_in _ _); simpl;
        now rewrite ?orb_false_r, ?orb_true_r. }
    destruct (dict_get (attrib c) "NotBefore") as [nb|] eqn:Hnb.
    + destruct (_parse_datetime self nb) as [lower| |] eqn:Hlower; try discriminate.
      exact (Hbody lower nb Hlower lower eq_refl).
    + refine (Hbody (whole_second d) txt Hp d _).
      rewrite Hlt. unfold dt_le in Hle. now destruct (dt_lt now d).
  - rewrite !andb_false_l, !orb_false_r, flags_eta.
    destruct (dict_get (attrib c) "NotBefore") as [nb|]; reflexivity.
Qed.

Lemma loop_body_unreadable (self : Response) (now : datetime) (c : element)
  (fl : flags) :
  clock_reading now = true ->
  readable self c = false ->
  loop_body self now c fl = Raise ValueError.
Proof.
  intros Hc Hr.
  destruct (default_not_before self now Hc) as [d [txt [Hd [Hf [Hp _]]]]].
  unfold loop_body, readable in *.
  fold five_seconds. rewrite Hd. cbn [bind]. rewrite Hf.
  destruct (dict_get (attrib c) "NotOnOrAfter") as [noa|] eqn:Hnoa;
    [|discriminate].
  destruct (dict_get (attrib c) "NotBefore") as [nb|] eqn:Hnb; cbn [bind].
  - destruct (parse_datetime_outcome self nb) as [Hn|[lower [Hn _]]];
      rewrite Hn in *; [reflexivity|]. cbn [bind].
    destruct (parse_datetime_outcome self noa) as [->|[upper [Hu _]]];
      [reflexivity|]. rewrite Hu in Hr. simpl in Hr. discriminate.
  - rewrite Hp. cbn [bind].
    destruct (parse_datetime_outcome self noa) as [->|[upper [Hu _]]];
      [reflexivity|]. rewrite Hu in Hr. simpl in Hr. discriminate.
Qed.

(** ** The loop *)

Lemma loop_readable (self : Response) (now : datetime) (cs : list element) :
  clock_reading now = true ->
  forallb (readable self) cs = true ->
  forall fl,
    loop self now cs fl
    = Return
        {| foundCondition := foundCondition fl || existsb (in_window self now) cs;
           fountConditionAndAudience :=
             fountConditionAndAudience fl
             || (existsb (in_window self now) cs && truthy (_issuer self)
                 && issuer_in (_issuer self)
                      (audiences_below (conditions_of (_document self)))) |}.
Proof.
  intros Hv. induction cs as [|c cs IH]; intros Hr fl; simpl.
  - now rewrite !orb_false_r, flags_eta.
  - simpl in Hr. apply andb_true_iff in Hr. destruct Hr as [Hc Hr].
    rewrite (loop_body_readable self now c fl Hv Hc). cbn [bind].
    rewrite (IH Hr). cbn [foundCondition fountConditionAndAudience].
    f_equal. f_equal.
    + now rewrite orb_assoc.
    + destruct (fountConditionAndAudience fl), (in_window self now c),
        (existsb (in_window self now) cs), (truthy (_issuer self)),
        (issuer_in (_issuer self)
           (audiences_below (conditions_of (_document self)))); reflexivity.
Qed.

Lemma loop_unreadable (self : Response) (now : datetime) (cs : list element) :
  clock_reading now = true ->
  forallb (readable self) cs = false ->
  forall fl, loop self now cs fl = Raise ValueError.
Proof.
  intros Hv. induction cs as [|c cs IH]; intros Hr fl; simpl in *.
  - discriminate.
  - destruct (readable self c) eqn:Hc.
    + rewrite (loop_body_readable self now c fl Hv Hc). cbn [bind].
      now apply IH.
    + now rewrite (loop_body_unreadable self now c fl Hv Hc).
Qed.

(** Without an issuer no turn of the loop sets
    [fountConditionAndAudience]. *)
Lemma loop_body_no_issuer (self : Response) (now : datetime) (c : element)
  (fl fl' : flags) :
  truthy (_issuer self) = false ->
  loop_body self now c fl = Return fl' ->
  fountConditionAndAudience fl' = fountConditionAndAudience fl.
Proof.
  intros Hi. unfold loop_body. rewrite Hi.
  destruct (match dict_get (attrib c) "NotBefore" with
            | Some s => Return s
            | None => _
            end) as [nb| |]; cbn [bind]; try discriminate.
  destruct (dict_get (attrib c) "NotOnOrAfter") as [noa|];
    [|now intros [= <-]].
  destruct (_parse_datetime self nb) as [lower| |]; cbn [bind]; try discriminate.
  destruct (_parse_datetime self noa) as [upper| |]; cbn [bind]; try discriminate.
  destruct (dt_lt now lower); [now intros [= <-]|].
  destruct (dt_ge now upper); now intros [= <-].
Qed.

Lemma loop_no_issuer (self : Response) (now : datetime) (cs : list element) :
  truthy (_issuer self) = false ->
  forall fl fl',
    loop self now cs fl = Return fl' ->
    fountConditionAndAudience fl' = fountConditionAndAudience fl.
Proof.
  intros Hi. induction cs as [|c cs IH]; intros fl fl'; simpl.
  - now intros [= <-].
  - destruct (loop_body self now c fl) as [fl1| |] eqn:Hb; cbn [bind];
      try discriminate.
    intros Hl. rewrite (IH _ _ Hl). exact (loop_body_no_issuer _ _ _ _ _ Hi Hb).
Qed.

(** ** is_valid *)

Section Validity.

Variable utcnow : unit -> datetime.
Variable verify : element -> string -> bool.

(** [is_valid], as the outcome of its loop decides it. *)
Lemma is_valid_unfold (self : Response) (_clock : option (unit -> datetime))
  (_verifier : option (element -> string -> bool)) :
  is_valid utcnow verify self _clock _verifier []
  = match loop self (default _clock utcnow tt) (conditions_of (_document self))
            {| foundCondition := false; fountConditionAndAudience := false |}
    with
    | Return fl =>
        if foundCondition fl && fountConditionAndAudience fl
        then (Return (default _verifier verify (_document self) (_signature self)),
              [CallClock; CallVerifier (_document self) (_signature self)])
        else (Raise (ResponseConditionError
                       (if foundCondition fl then "Not valid Audience"
                        else "Timmig issue")),
              [CallClock])
    | Raise e => (Raise e, [CallClock])
    | Unmodelled => (Unmodelled, [CallClock])
    end.
Proof.
  unfold is_valid, lbind, lift, calling, default. rewrite xpath_conditions.
  cbn [app].
  destruct (loop self _ _ _) as [[fc fca]| |]; try reflexivity.
  destruct fc, fca; reflexivity.
Qed.

End Validity.

Import Examples.

(** * The claims *)

Section Claims.

Variable utcnow : unit -> datetime.
Variable verify : element -> string -> bool.

(** Without an issuer, [is_valid] never returns: where the loop finds a
    condition in its window, the audience test after the loop fails. *)
Lemma is_valid_needs_issuer (self : Response)
  (_clock : option (unit -> datetime))
  (_verifier : option (element -> string -> bool)) :
  truthy (_issuer self) = false ->
  forall b, fst (is_valid utcnow verify self _clock _verifier []) <> Return b.
Proof.
  intros Hi b. rewrite is_valid_unfold.
  destruct (loop self _ _ _) as [fl| |] eqn:Hl; try discriminate.
  rewrite (loop_no_issuer _ _ _ Hi _ _ Hl). cbn [fountConditionAndAudience].
  rewrite andb_false_r. discriminate.
Qed.

(** C3. A failure of the temporal and audience check raises
    [ResponseConditionError] with the verifier not called; whenever
    [is_valid] raises, the verifier was not called; whenever it returns,
    the verifier was called exactly once, after the clock, and its answer
    is what [is_valid] returns, [False] included; and when the check
    succeeds [is_valid] does return. *)
Theorem verifier_consulted_last (self : Response)
  (_clock : option (unit -> datetime))
  (_verifier : option (element -> string -> bool)) :
  let out := is_valid utcnow verify self _clock _verifier [] in
  let answer := default _verifier verify (_document self) (_signature self) in
  let checked :=
    loop self (default _clock utcnow tt) (conditions_of (_document self))
      {| foundCondition := false; fountConditionAndAudience := false |} in
  (forall fl, checked = Return fl ->
              foundCondition fl && fountConditionAndAudience fl = false ->
              exists msg, out = (Raise (ResponseConditionError msg), [CallClock]))
  /\ (forall e, fst out = Raise e -> verifier_calls (snd out) = 0%nat)
  /\ (forall b, fst out = Return b ->
                b = answer
                /\ snd out = [CallClock;
                              CallVerifier (_document self) (_signature self)])
  /\ (forall fl, checked = Return fl ->
                 foundCondition fl && fountConditionAndAudience fl = true ->
                 out = (Return answer,
                        [CallClock;
                         CallVerifier (_document self) (_signature self)])).
Proof.
  intros out answer checked. subst out answer checked.
  rewrite is_valid_unfold.
  destruct (loop self _ _ _) as [fl| |];
    [destruct (foundCondition fl && fountConditionAndAudience fl) eqn:Hf| |];
    cbn [fst snd]; repeat split;
    try (intros fl' [= <-] Hf'); try (intros ? [= <-]); try (intros ? [=]);
    try reflexivity; try congruence.
  eexists. reflexivity.
Qed.

End Claims.

(** C3, on a document: with the signature turned down, [is_valid] returns
    [False] after one call of the verifier; with the window over, it raises
    and the verifier is not called. *)
Lemma verifier_consulted_last_witness :
  is_valid Examples.utcnow Examples.verify
    (make (response [today]) sp) (clock noon) (verifier false) []
  = (Return false, [CallClock; CallVerifier (response [today]) "fingerprint"])
  /\ exists msg,
      is_valid Examples.utcnow Examples.verify
        (make (response [yesterday]) sp) (clock noon) (verifier false) []
      = (Raise (ResponseConditionError msg), [CallClock]).
Proof.
  split.
  - apply (proj2 (proj2 (proj2
             (verifier_consulted_last Examples.utcnow Examples.verify
                (make (response [today]) sp) (clock noon) (verifier false))))
             {| foundCondition := true; fountConditionAndAudience := true |});
      reflexivity.
  - apply (proj1
             (verifier_consulted_last Examples.utcnow Examples.verify
                (make (response [yesterday]) sp) (clock noon) (verifier false))
             {| foundCondition := false; fountConditionAndAudience := false |});
      reflexivity.
Defined.

(** C1, at a document with one condition in its window and no issuer:
    [is_valid] raises the audience error instead of returning what the
    verifier says. *)
Theorem no_issuer_audience_error :
  in_window (make (response [today]) None) noon today = true
  /\ is_valid Examples.utcnow Examples.verify
       (make (response [today]) None) (clock noon) (verifier true) []
     = (Raise (ResponseConditionError "Not valid Audience"), [CallClock]).
Proof. split; reflexivity. Qed.

(** C2, at a document with two condition blocks: the one in its window is
    for another audience, the one for the issuer has run out, and
    [is_valid] lets the document through. *)
Theorem audience_of_an_expired_block :
  let self := make (response [today; yesterday]) (Some "other.example.com") in
  conditions_of (_document self) = [today; yesterday]
  /\ in_window self noon today = true
  /\ in_window self noon yesterday = false
  /\ issuer_in (_issuer self) (audiences_below [today]) = false
  /\ is_valid Examples.utcnow Examples.verify self (clock noon) (verifier true) []
     = (Return true,
        [CallClock; CallVerifier (response [today; yesterday]) "fingerprint"]).
Proof. repeat split; reflexivity. Qed.

(** C6. On a condition with [NotOnOrAfter], a turn of the loop sets
    [foundCondition] exactly when [lower <= now < upper], where [upper] is
    the parsed [NotOnOrAfter] and [lower] the parsed [NotBefore] or, with
    no [NotBefore], five seconds before [now]; in that case [lower <= now]
    holds. *)
Theorem window_of_a_condition (self : Response) (now : datetime) (c : element)
  (fl : flags) (noa : string) (lower upper : datetime) :
  clock_reading now = true ->
  dict_get (attrib c) "NotOnOrAfter" = Some noa ->
  _parse_datetime self noa = Return upper ->
  lower_bound self now c = Return lower ->
  exists fl',
    loop_body self now c fl = Return fl'
    /\ (foundCondition fl' = true <->
        foundCondition fl = true \/ (dt_le lower now = true /\ dt_lt now upper = true))
    /\ (dict_get (attrib c) "NotBefore" = None -> dt_le lower now = true).
Proof.
  intros Hc Hnoa Hu Hl.
  assert (Hr : readable self c = true).
  { unfold readable. unfold lower_bound in Hl. rewrite Hnoa, Hu.
    destruct (dict_get (attrib c) "NotBefore"); [now rewrite Hl|reflexivity]. }
  assert (Hw : in_window self now c = dt_le lower now && dt_lt now upper).
  { unfold in_window. now rewrite Hnoa, Hl, Hu. }
  eexists. split; [apply (loop_body_readable self now c fl Hc Hr)|].
  cbn [foundCondition]. rewrite Hw. split.
  - rewrite orb_true_iff, andb_true_iff. tauto.
  - intros Hnb. unfold lower_bound in Hl. rewrite Hnb in Hl.
    apply andb_true_iff in Hc. destruct Hc as [Hv _].
    destruct (five_seconds_before now lower Hv Hl) as [_ [_ [Hlt _]]].
    unfold dt_le. now rewrite Hlt.
Qed.

(** C6, half a second before the end of a block with no [NotBefore]. *)
Lemma window_of_a_condition_witness :
  exists fl',
    loop_body (make (response [open_start]) sp) noon open_start
      {| foundCondition := false; fountConditionAndAudience := false |}
    = Return fl'
    /\ (foundCondition fl' = true <->
        false = true
        \/ (dt_le (at_ 2011 6 17 11 59 55 0) noon = true
            /\ dt_lt noon (at_ 2011 6 17 12 0 0 500000) = true))
    /\ (dict_get (attrib open_start) "NotBefore" = None ->
        dt_le (at_ 2011 6 17 11 59 55 0) noon = true).
Proof.
  apply (window_of_a_condition (make (response [open_start]) sp) noon open_start
           {| foundCondition := false; fountConditionAndAudience := false |}
           "2011-06-17T12:00:00.500000Z");
    reflexivity.
Defined.

(** C7. A condition with no [NotOnOrAfter] leaves the flags as they are,
    whatever its [NotBefore] says, and is not in a window.  With no
    [NotBefore] either, the loop works out the default before it skips the
    condition: this takes a reading of the clock that [strftime] can write
    five seconds back. *)
Theorem condition_without_end_is_skipped (self : Response) (now : datetime)
  (c : element) (fl : flags) :
  dict_get (attrib c) "NotOnOrAfter" = None ->
  (dict_get (attrib c) "NotBefore" = None -> clock_reading now = true) ->
  loop_body self now c fl = Return fl /\ in_window self now c = false.
Proof.
  intros Hnoa Hclock. unfold loop_body, in_window. rewrite Hnoa.
  split; [|reflexivity].
  destruct (dict_get (attrib c) "NotBefore") as [nb|]; [reflexivity|].
  destruct (default_not_before self now (Hclock eq_refl))
    as [d [txt [Hd [Hf _]]]].
  fold five_seconds. rewrite Hd. cbn [bind]. now rewrite Hf.
Qed.

(** C7, on a block whose [NotBefore] is long past, and on a block with no
    attribute at all. *)
Lemma condition_without_end_is_skipped_witness :
  (loop_body (make (response [open_end]) sp) noon open_end
     {| foundCondition := false; fountConditionAndAudience := false |}
   = Return {| foundCondition := false; fountConditionAndAudience := false |}
   /\ in_window (make (response [open_end]) sp) noon open_end = false)
  /\ (loop_body (make (response [unbounded]) sp) noon unbounded
        {| foundCondition := false; fountConditionAndAudience := false |}
      = Return {| foundCondition := false; fountConditionAndAudience := false |}
      /\ in_window (make (response [unbounded]) sp) noon unbounded = false).
Proof.
  split.
  - apply condition_without_end_is_skipped; [reflexivity|discriminate].
  - apply condition_without_end_is_skipped; [reflexivity|reflexivity].
Defined.

(** ** Audiences *)

Lemma descend_nodes_app (sts : list XPath.step) (a b : list element) :
  XPath.descend sts (a ++ b)%list
  = (XPath.descend sts a ++ XPath.descend sts b)%list.
Proof.
  revert a b. induction sts as [|st sts IH]; intros a b; simpl; [reflexivity|].
  now rewrite flat_map_app, filter_app, IH.
Qed.

Lemma descend_member (sts : list XPath.step) (c e : element) (cs : list element) :
  In c cs -> In e (XPath.descend sts [c]) -> In e (XPath.descend sts cs).
Proof.
  intros Hc He. apply in_split in Hc. destruct Hc as [l1 [l2 ->]].
  change (c :: l2) with ([c] ++ l2)%list.
  rewrite !descend_nodes_app, !in_app_iff. tauto.
Qed.

(** The audiences of one [Conditions] element are among those the absolute
    query gathers. *)
Lemma issuer_in_own_audiences (issuer : option string) (c : element)
  (cs : list element) :
  In c cs ->
  issuer_in issuer (audiences_below [c]) = true ->
  issuer_in issuer (audiences_below cs) = true.
Proof.
  intros Hc. unfold issuer_in, audiences_below.
  destruct issuer as [i|]; rewrite !existsb_exists;
    intros [v [Hv Hi]]; exists v; (split; [|exact Hi]);
    apply in_map_iff in Hv; destruct Hv as [e [<- He]];
    apply in_map, (descend_member _ c); assumption.
Qed.

Section Conditions.

Variable utcnow : unit -> datetime.
Variable verify : element -> string -> bool.

(** C5, as the code has it.  When the timestamps the loop reads can all be
    read: with no condition in its window [is_valid] raises the timing
    error; and with an issuer, one condition in its window that names the
    issuer among its audiences is enough for [is_valid] to return what the
    verifier says, whatever the windows of the other conditions. *)
Theorem one_window_suffices (self : Response)
  (_clock : option (unit -> datetime))
  (_verifier : option (element -> string -> bool)) :
  let now := default _clock utcnow tt in
  let out := is_valid utcnow verify self _clock _verifier [] in
  clock_reading now = true ->
  (forall c, In c (conditions_of (_document self)) -> readable self c = true) ->
  ((forall c, In c (conditions_of (_document self)) ->
              in_window self now c = false) ->
   out = (Raise (ResponseConditionError "Timmig issue"), [CallClock]))
  /\ (forall c, In c (conditions_of (_document self)) ->
                in_window self now c = true ->
                truthy (_issuer self) = true ->
                issuer_in (_issuer self) (audiences_below [c]) = true ->
                out = (Return (default _verifier verify
                                 (_document self) (_signature self)),
                       [CallClock;
                        CallVerifier (_document self) (_signature self)])).
Proof.
  intros now out Hv Hr. subst out. rewrite is_valid_unfold. fold now.
  assert (Hall : forallb (readable self) (conditions_of (_document self)) = true)
    by (apply forallb_forall; exact Hr).
  rewrite (loop_readable self now _ Hv Hall).
  cbn [foundCondition fountConditionAndAudience orb]. split.
  - intros Hout.
    assert (Hex : existsb (in_window self now) (conditions_of (_document self)) = false).
    { apply not_true_iff_false. rewrite existsb_exists. intros [c [Hc Hw]].
      rewrite (Hout c Hc) in Hw. discriminate. }
    rewrite Hex. reflexivity.
  - intros c Hc Hw Hi Ha.
    assert (Hex : existsb (in_window self now) (conditions_of (_document self)) = true)
      by (apply existsb_exists; now exists c).
    rewrite Hex, Hi, (issuer_in_own_audiences _ c _ Hc Ha). reflexivity.
Qed.

(** C4, as the code has it.  [_parse_datetime] tries the whole-second
    format first and the fractional one when that fails; a timestamp that
    neither reads, on a condition with [NotOnOrAfter], makes [is_valid]
    raise the [ValueError] of [strptime], not a [ResponseConditionError],
    and the verifier is not called.  (The clock is to read a date after
    1900: the loop may first have to write the default of a missing
    [NotBefore].) *)
Theorem unreadable_timestamp_is_a_ValueError (self : Response)
  (_clock : option (unit -> datetime))
  (_verifier : option (element -> string -> bool)) :
  let now := default _clock utcnow tt in
  (forall s d, strptime s "%Y-%m-%dT%H:%M:%SZ" = Return d ->
               _parse_datetime self s = Return d)
  /\ (forall s, strptime s "%Y-%m-%dT%H:%M:%SZ" = Raise ValueError ->
                _parse_datetime self s = strptime s "%Y-%m-%dT%H:%M:%S.%fZ")
  /\ (forall c noa,
        clock_reading now = true ->
        In c (conditions_of (_document self)) ->
        dict_get (attrib c) "NotOnOrAfter" = Some noa ->
        (unreadable noa
         \/ exists nb, dict_get (attrib c) "NotBefore" = Some nb /\ unreadable nb) ->
        is_valid utcnow verify self _clock _verifier []
        = (Raise ValueError, [CallClock])).
Proof.
  intros now. split; [|split].
  - intros s d H. unfold _parse_datetime. now rewrite H.
  - intros s H. unfold _parse_datetime. now rewrite H.
  - intros c noa Hv Hc Hnoa Hbad.
    assert (Hr : readable self c = false).
    { unfold readable. rewrite Hnoa.
      destruct Hbad as [Hu|[nb [Hnb Hu]]];
        apply (parse_datetime_unreadable self) in Hu.
      - rewrite Hu. apply andb_false_r.
      - rewrite Hnb, Hu. reflexivity. }
    assert (Hall : forallb (readable self) (conditions_of (_document self)) = false).
    { apply not_true_iff_false. rewrite forallb_forall. intros H.
      rewrite (H c Hc) in Hr. discriminate. }
    rewrite is_valid_unfold. fold now.
    now rewrite (loop_unreadable self now _ Hv Hall).
Qed.

End Conditions.

(** C5, on two blocks: the one of yesterday has run out, the one of today
    names the issuer; and on the block of yesterday alone. *)
Lemma one_window_suffices_witness :
  is_valid Examples.utcnow Examples.verify
    (make (response [yesterday; today]) sp) (clock noon) (verifier true) []
  = (Return true,
     [CallClock; CallVerifier (response [yesterday; today]) "fingerprint"])
  /\ is_valid Examples.utcnow Examples.verify
       (make (response [yesterday]) sp) (clock noon) (verifier true) []
     = (Raise (ResponseConditionError "Timmig issue"), [CallClock]).
Proof.
  split.
  - refine (proj2 (one_window_suffices Examples.utcnow Examples.verify
                     (make (response [yesterday; today]) sp) (clock noon)
                     (verifier true) eq_refl _)
              today _ eq_refl eq_refl eq_refl).
    + intros c [<-|[<-|[]]]; reflexivity.
    + right. left. reflexivity.
  - refine (proj1 (one_window_suffices Examples.utcnow Examples.verify
                     (make (response [yesterday]) sp) (clock noon)
                     (verifier true) eq_refl _) _);
      intros c [<-|[]]; reflexivity.
Defined.

(** C5 as it was stated fails: the only condition of this document is in
    no window, and [is_valid] raises a [ValueError], not a
    [ResponseConditionError]. *)
Lemma no_window_but_ValueError :
  let self := make (response [day_first]) sp in
  (forall c, In c (conditions_of (_document self)) -> in_window self noon c = false)
  /\ is_valid Examples.utcnow Examples.verify self (clock noon) (verifier true) []
     = (Raise ValueError, [CallClock])
  /\ forall msg,
       fst (is_valid Examples.utcnow Examples.verify self (clock noon)
              (verifier true) [])
       <> Raise (ResponseConditionError msg).
Proof.
  repeat split.
  - intros c [<-|[]]. reflexivity.
  - intros msg. discriminate.
Qed.

(** C4, on a block whose [NotOnOrAfter] has no time. *)
Lemma unreadable_timestamp_is_a_ValueError_witness :
  is_valid Examples.utcnow Examples.verify
    (make (response [today; date_only]) sp) (clock noon) (verifier true) []
  = (Raise ValueError, [CallClock]).
Proof.
  apply (proj2 (proj2 (unreadable_timestamp_is_a_ValueError
                         Examples.utcnow Examples.verify
                         (make (response [today; date_only]) sp) (clock noon)
                         (verifier true)))
           date_only "2011-06-18");
    [reflexivity|right; left; reflexivity|reflexivity|].
  left. split; reflexivity.
Defined.

(** C4 as it was stated fails: the date without a time is read by neither
    format, and what [is_valid] raises is no [ResponseConditionError]. *)
Lemma date_only_is_no_condition_error :
  let self := make (response [date_only]) sp in
  unreadable "2011-06-18"
  /\ is_valid Examples.utcnow Examples.verify self (clock noon) (verifier true) []
     = (Raise ValueError, [CallClock])
  /\ forall msg,
       fst (is_valid Examples.utcnow Examples.verify self (clock noon)
              (verifier true) [])
       <> Raise (ResponseConditionError msg).
Proof.
  repeat split. intros msg. discriminate.
Qed.

(** ** The name identifier *)

(** [_get_name_id], by the number of [NameID] elements. *)
Lemma name_id_by_count (self : Response) :
  match name_ids_of (_document self) with
  | [] => _get_name_id self = Raise (ResponseNameIDError "Did not find a name ID")
  | [node] => _get_name_id self = text_strip node
  | _ :: _ :: _ =>
      _get_name_id self = Raise (ResponseNameIDError "Found more than one name ID")
  end.
Proof.
  unfold _get_name_id. rewrite xpath_name_ids. cbn [bind].
  destruct (name_ids_of (_document self)) as [|n1 [|n2 l]]; try reflexivity.
  cbn [List.length].
  replace (Z.of_nat (S (S (List.length l))) >? 1) with true; [reflexivity|].
  symmetry. apply Z.gtb_lt. lia.
Qed.

(** C8, at a document with one [NameID] element that is empty: the count is
    one, and [_get_name_id] raises [AttributeError], where an empty
    identifier or a [ResponseNameIDError] was due. *)
Theorem empty_name_id_is_an_AttributeError :
  name_ids_of anonymous = [Element (saml "NameID") [] None []]
  /\ _get_name_id (make anonymous None) = Raise AttributeError.
Proof. split; reflexivity. Qed.

(** ** Attribute values *)

Lemma filter_none {A : Type} (p : A -> bool) (l : list A) :
  (forall x, In x l -> p x = false) -> filter p l = [].
Proof.
  induction l as [|x l IH]; intros H; simpl; [reflexivity|].
  rewrite (H x (or_introl eq_refl)). apply IH. intros y Hy. apply H. now right.
Qed.

(** C9, as the code has it.  For a name of plain characters with no double
    quote in it, and no [Attribute] element of that name in the attribute
    statements (or no statement at all), [get_assertion_attribute_value]
    returns the empty list. *)
Theorem absent_attribute_gives_no_value (self : Response) (name : string) :
  Str.all XPath.plain name = true ->
  Str.contains Str.dquote name = false ->
  (forall a, In a (attributes_of (_document self)) ->
             dict_get (attrib a) "Name" <> Some name) ->
  get_assertion_attribute_value self name = Return [].
Proof.
  intros Hplain Hquote Habsent. unfold get_assertion_attribute_value.
  rewrite (xpath_attribute self name Hplain Hquote). cbn [bind XPath.descend].
  match goal with
  | |- context [filter (XPath.matches ?st)
                  (flat_map children (reach ?d ?tags))] =>
      rewrite (filter_none (XPath.matches st)
                 (flat_map children (reach d tags)))
  end; [reflexivity|].
  intros a Ha. unfold XPath.matches. cbn [XPath.step_name XPath.step_predicates].
  destruct (String.eqb (tag a) (saml "Attribute")) eqn:Htag; [|reflexivity].
  assert (Hin : In a (attributes_of (_document self))).
  { unfold attributes_of, reach. cbn [map].
    change [named (samlp "Response"); named (saml "Assertion");
            named (saml "AttributeStatement"); named (saml "Attribute")]
      with ([named (samlp "Response"); named (saml "Assertion");
             named (saml "AttributeStatement")] ++ [named (saml "Attribute")])%list.
    rewrite descend_app. cbn [XPath.descend]. apply filter_In. split.
    - exact Ha.
    - unfold XPath.matches, named.
      cbn [XPath.step_name XPath.step_predicates forallb]. now rewrite Htag. }
  specialize (Habsent a Hin).
  cbn [forallb XPath.holds XPath.value andb].
  destruct (dict_get (attrib a) "Name") as [v|]; [|reflexivity].
  destruct (String.eqb v name) eqn:Hv; [|reflexivity].
  apply String.eqb_eq in Hv. congruence.
Qed.

(** C9, on a document with one attribute, asked for another. *)
Lemma absent_attribute_gives_no_value_witness :
  get_assertion_attribute_value (make jdoe None) "mail" = Return [].
Proof.
  apply absent_attribute_gives_no_value; [reflexivity|reflexivity|].
  intros a [<-|[]]. discriminate.
Defined.

(** C9 as it was stated fails: no attribute of the document is named by a
    double quote, and asking for that name raises. *)
Lemma absent_attribute_can_raise :
  (forall a, In a (attributes_of jdoe) -> dict_get (attrib a) "Name" <> Some lone_quote)
  /\ get_assertion_attribute_value (make jdoe None) lone_quote = Raise XPathEvalError
  /\ get_assertion_attribute_value (make jdoe None) lone_quote <> Return [].
Proof.
  repeat split.
  - intros a [<-|[]]. discriminate.
  - discriminate.
Qed.

(** C10. The name goes into the query as it is.  A name that is one double
    quote leaves a literal open, and the lookup raises [XPathEvalError] on
    every document.  A name that begins with [uid], closes the literal and
    opens a predicate of its own is answered on every document with what
    the name [uid] is answered with; so on a document where the lookup
    tells the names apart ([uid] has one value, [group] two others, and
    [mail], which no attribute has, none) the crafted name, which no
    attribute has either, is given the value of [uid]. *)
Theorem attribute_name_is_not_escaped :
  (exists name,
      Str.contains Str.dquote name = true
      /\ forall self, get_assertion_attribute_value self name = Raise XPathEvalError)
  /\ (exists name,
         Str.contains Str.dquote name = true
         /\ (forall self, get_assertion_attribute_value self name
                          = get_assertion_attribute_value self "uid")
         /\ exists self,
             (forall a, In a (attributes_of (_document self)) ->
                        dict_get (attrib a) "Name" <> Some name
                        /\ dict_get (attrib a) "Name" <> Some "mail")
             /\ get_assertion_attribute_value self "uid" = Return ["jdoe"]
             /\ get_assertion_attribute_value self "group"
                = Return ["admin"; "users"]
             /\ get_assertion_attribute_value self "mail" = Return []
             /\ get_assertion_attribute_value self name = Return ["jdoe"]).
Proof.
  split.
  - exists lone_quote. split; [reflexivity|]. intros self. reflexivity.
  - exists crafted. split; [reflexivity|]. split.
    + intros self. unfold get_assertion_attribute_value.
      rewrite (xpath_attribute self "uid" eq_refl eq_refl).
      replace (document_xpath self _)
        with (Return
                (XPath.descend
                   [ {| XPath.step_name := saml "Attribute";
                        XPath.step_predicates :=
                          [XPath.PEqual (XPath.OAttribute "Name") (XPath.OLiteral "uid");
                           XPath.PTest (XPath.OLiteral "x")] |};
                     named (saml "AttributeValue") ]
                   (reach (_document self)
                      [samlp "Response"; saml "Assertion";
                       saml "AttributeStatement"])))
        by reflexivity.
      reflexivity.
    + exists (make staff None). split; [|repeat split].
      intros a [<-|[<-|[]]]; split; discriminate.
Qed.

(** * More on the code *)

(** ** Matching a whole timestamp *)

Lemma settles_none_or_whole {A : Type} (alts : list (list charclass))
  (txt s : string) (k : string -> string -> option A) :
  settles alts txt = true ->
  stops_at_digits k ->
  first_match alts (txt ++ s) k = None
  \/ first_match alts (txt ++ s) k = k txt s.
Proof.
  intros Hs Hk. induction alts as [|a alts IH]; simpl; [now left|].
  simpl in Hs. apply andb_true_iff in Hs. destruct Hs as [Hs Hrest].
  apply andb_true_iff in Hs. destruct Hs as [Hlen Ha]. apply Nat.leb_le in Hlen.
  rewrite (match_seq_app a txt s Hlen).
  destruct (match_seq a txt) as [[t rest]|] eqn:E; [|now apply IH].
  destruct rest as [|c rest].
  - apply match_seq_whole in E. rewrite append_empty_r in E. subst t. simpl.
    destruct (k txt s) eqn:Ek; [now right|].
    destruct (IH Hrest) as [H|H]; [now left|]. left. now rewrite H.
  - simpl. rewrite (Hk t c (rest ++ s) Ha). now apply IH.
Qed.

(** A group whose value settles takes exactly its text. *)
Lemma first_match_whole {A : Type} (alts : list (list charclass))
  (txt s : string) (k : string -> string -> option A) :
  picks alts txt = true ->
  settles alts txt = true ->
  stops_at_digits k ->
  first_match alts (txt ++ s) k = k txt s.
Proof.
  intros Hp Hs Hk. induction alts as [|a alts IH]; simpl in *; [discriminate|].
  apply andb_true_iff in Hs. destruct Hs as [Hs Hrest].
  apply andb_true_iff in Hs. destruct Hs as [Hlen Ha]. apply Nat.leb_le in Hlen.
  apply andb_true_iff in Hp. destruct Hp as [_ Hp].
  rewrite (match_seq_app a txt s Hlen).
  destruct (match_seq a txt) as [[t rest]|] eqn:E; [|now apply IH].
  destruct rest as [|c rest]; [|discriminate].
  apply match_seq_whole in E. rewrite append_empty_r in E. subst t. simpl.
  destruct (k txt s) eqn:Ek; [reflexivity|].
  destruct (settles_none_or_whole alts txt s k Hrest Hk) as [H|H];
    [exact H|now rewrite H].
Qed.

Lemma literal_stops_at_digits (l : ascii) (ds : list directive)
  (f : string -> datetime) :
  no_digit l = true ->
  stops_at_digits (fun txt rest => regex_match (DLit l :: ds) rest (f txt)).
Proof.
  intros Hl t c r Hc. simpl. unfold anycase.
  destruct (Ascii.eqb (Str.lower c) (Str.lower l)) eqn:E; [|reflexivity].
  apply Ascii.eqb_eq in E. unfold no_digit in Hl. rewrite <- E in Hl.
  unfold Str.lower in Hl.
  assert (Hu : Str.is_upper c = false).
  { unfold Str.is_digit, Str.is_upper, Str.between in *.
    apply andb_true_iff in Hc. destruct Hc as [_ Hc]. apply Z.leb_le in Hc.
    apply andb_false_iff. left. apply Z.leb_gt. lia. }
  rewrite Hu, Hc in Hl. discriminate.
Qed.

Lemma settles_back_all (x : directive) :
  forallb (settles_back x) (upto (Z.to_nat (greatest x - least x + 1)) (least x))
  = true.
Proof. destruct x; vm_compute; reflexivity. Qed.

(** A group of a [datetime] field, written by [strftime] and followed by a
    literal, is read in one way only. *)
Lemma match_field_exact (x : directive) (v : Z) (l : ascii)
  (ds : list directive) (s : string) (d : datetime) :
  least x <= v <= greatest x ->
  no_digit l = true ->
  regex_match (x :: DLit l :: ds) (pad (width x) v ++ s) d
  = regex_match (DLit l :: ds) s (store x v d).
Proof.
  intros Hv Hl.
  pose proof (reads_back_all x) as Hall. rewrite forallb_forall in Hall.
  assert (Hr : reads_back x v = true) by (apply Hall, in_upto; lia).
  pose proof (settles_back_all x) as Hall'. rewrite forallb_forall in Hall'.
  assert (Hs : settles_back x v = true) by (apply Hall', in_upto; lia).
  unfold reads_back in Hr.
  apply andb_true_iff in Hr. destruct Hr as [Hp Hg]. apply Z.eqb_eq in Hg.
  change (regex_match (x :: DLit l :: ds) (pad (width x) v ++ s) d)
    with (first_match (alternatives x) (pad (width x) v ++ s)
            (fun txt rest => regex_match (DLit l :: ds) rest (assign x txt d))).
  rewrite (first_match_whole _ _ _ _ Hp Hs
             (literal_stops_at_digits l ds (fun txt => assign x txt d) Hl)).
  unfold assign. now rewrite Hg.
Qed.

Lemma digit_char_spec (n : Z) :
  Str.is_digit (digit_char n) = true /\ Str.code (digit_char n) - 48 = n mod 10.
Proof.
  unfold digit_char.
  assert (H : In (n mod 10) (upto 10 0))
    by (apply in_upto; pose proof (Z.mod_pos_bound n 10); lia).
  revert H. generalize (n mod 10). intros k H. simpl in H.
  repeat (destruct H as [<-|H]; [split; reflexivity|]). destruct H.
Qed.

(** The group of [%f], after six digits and before a literal. *)
Lemma match_micro_exact (v : Z) (l : ascii) (ds : list directive) (s : string)
  (d : datetime) :
  0 <= v <= 999999 ->
  no_digit l = true ->
  regex_match (DMicro :: DLit l :: ds) (pad 6 v ++ s) d
  = regex_match (DLit l :: ds) s (store DMicro v d).
Proof.
  intros Hv Hl.
  change (pad 6 v)
    with (String (digit_char (v / 10 / 10 / 10 / 10 / 10))
            (String (digit_char (v / 10 / 10 / 10 / 10))
               (String (digit_char (v / 10 / 10 / 10))
                  (String (digit_char (v / 10 / 10))
                     (String (digit_char (v / 10))
                        (String (digit_char v) "")))))).
  destruct (digit_char_spec (v / 10 / 10 / 10 / 10 / 10)) as [D5 C5].
  destruct (digit_char_spec (v / 10 / 10 / 10 / 10)) as [D4 C4].
  destruct (digit_char_spec (v / 10 / 10 / 10)) as [D3 C3].
  destruct (digit_char_spec (v / 10 / 10)) as [D2 C2].
  destruct (digit_char_spec (v / 10)) as [D1 C1].
  destruct (digit_char_spec v) as [D0 C0].
  revert D5 C5 D4 C4 D3 C3 D2 C2 D1 C1 D0 C0.
  generalize (digit_char (v / 10 / 10 / 10 / 10 / 10)) as c5.
  generalize (digit_char (v / 10 / 10 / 10 / 10)) as c4.
  generalize (digit_char (v / 10 / 10 / 10)) as c3.
  generalize (digit_char (v / 10 / 10)) as c2.
  generalize (digit_char (v / 10)) as c1.
  generalize (digit_char v) as c0.
  intros c0 c1 c2 c3 c4 c5 D5 C5 D4 C4 D3 C3 D2 C2 D1 C1 D0 C0.
  set (txt := String c5 (String c4 (String c3 (String c2 (String c1 (String c0 "")))))).
  change (regex_match (DMicro :: DLit l :: ds) (txt ++ s) d)
    with (first_match (alternatives DMicro) (txt ++ s)
            (fun t rest => regex_match (DLit l :: ds) rest (assign DMicro t d))).
  rewrite first_match_whole.
  - unfold assign, group_value, txt. cbn [String.length Nat.sub zeros String.append to_int].
    rewrite D5, D4, D3, D2, D1, D0.
    replace ((((((0 * 10 + (Str.code c5 - 48)) * 10 + (Str.code c4 - 48)) * 10
                + (Str.code c3 - 48)) * 10 + (Str.code c2 - 48)) * 10
              + (Str.code c1 - 48)) * 10 + (Str.code c0 - 48)) with v;
      [reflexivity|].
    rewrite C5, C4, C3, C2, C1, C0. Z.div_mod_to_equations. lia.
  - unfold txt. cbn [alternatives picks match_seq List.length String.length Nat.leb andb].
    change (rng "0" "9") with Str.is_digit.
    now rewrite D5, D4, D3, D2, D1, D0.
  - unfold txt.
    cbn [alternatives settles match_seq List.length String.length Nat.leb andb].
    change (rng "0" "9") with Str.is_digit.
    cbn [match_seq].
    now rewrite ?D5, ?D4, ?D3, ?D2, ?D1, ?D0.
  - apply literal_stops_at_digits. exact Hl.
Qed.

(** ** _parse_datetime *)

(** X2. A [datetime] from 1900 on, written in the whole-second format, is
    read back by [_parse_datetime] with its microseconds dropped and every
    other field as it was. *)
Theorem whole_second_round_trip (self : Response) (d : datetime) :
  valid d = true ->
  1900 <= year d ->
  exists s, strftime d "%Y-%m-%dT%H:%M:%SZ" = Return s
            /\ _parse_datetime self s = Return (whole_second d).
Proof.
  intros Hv Hy. destruct (strftime_strptime d Hv Hy) as [s [Hf Hp]].
  exists s. split; [exact Hf|]. unfold _parse_datetime. now rewrite Hp.
Qed.

Lemma whole_second_round_trip_witness :
  exists s, strftime (at_ 2011 6 17 14 54 14 120000) "%Y-%m-%dT%H:%M:%SZ" = Return s
            /\ _parse_datetime (make jdoe None) s
               = Return (whole_second (at_ 2011 6 17 14 54 14 120000)).
Proof.
  apply (whole_second_round_trip (make jdoe None)); [reflexivity|].
  cbn [year at_]. lia.
Defined.

(** X3. A [datetime] from 1900 on, written in the fractional format, is
    read back by [_parse_datetime] as it was: the whole-second format fails
    on the text, in every way of matching it, and the fractional one reads
    all seven fields. *)
Theorem fraction_round_trip (self : Response) (d : datetime) :
  valid d = true ->
  1900 <= year d ->
  exists s, strftime d "%Y-%m-%dT%H:%M:%S.%fZ" = Return s
            /\ strptime s "%Y-%m-%dT%H:%M:%SZ" = Raise ValueError
            /\ _parse_datetime self s = Return d.
Proof.
  intros Hv Hy. unfold strftime. rewrite directives_fraction.
  replace (year d <? 1900) with false by (symmetry; apply Z.ltb_ge; exact Hy).
  eexists. split; [reflexivity|].
  pose proof Hv as Hv'. apply valid_spec in Hv'.
  pose proof (days_in_month_bounds (year d) (month d)).
  change (String.concat "" (map (render d) fraction_format))
    with (pad (width DYear) (year d) ++ String "-"
           (pad (width DMonth) (month d) ++ String "-"
             (pad (width DDay) (day d) ++ String "T"
               (pad (width DHour) (hour d) ++ String ":"
                 (pad (width DMinute) (minute d) ++ String ":"
                   (pad (width DSecond) (second d) ++ String "."
                     (pad 6 (microsecond d) ++ String "Z" ""))))))).
  assert (H1 : strptime
                 (pad (width DYear) (year d) ++ String "-"
                   (pad (width DMonth) (month d) ++ String "-"
                     (pad (width DDay) (day d) ++ String "T"
                       (pad (width DHour) (hour d) ++ String ":"
                         (pad (width DMinute) (minute d) ++ String ":"
                           (pad (width DSecond) (second d) ++ String "."
                             (pad 6 (microsecond d) ++ String "Z" "")))))))
                 "%Y-%m-%dT%H:%M:%SZ" = Raise ValueError).
  { unfold strptime. rewrite directives_seconds. unfold seconds_format.
    rewrite seen_ascii by ascii_text.
    rewrite match_field_exact by (simpl; (lia || reflexivity)). rewrite match_literal.
    rewrite match_field_exact by (simpl; (lia || reflexivity)). rewrite match_literal.
    rewrite match_field_exact by (simpl; (lia || reflexivity)). rewrite match_literal.
    rewrite match_field_exact by (simpl; (lia || reflexivity)). rewrite match_literal.
    rewrite match_field_exact by (simpl; (lia || reflexivity)). rewrite match_literal.
    rewrite match_field_exact by (simpl; (lia || reflexivity)).
    reflexivity. }
  split; [exact H1|].
  unfold _parse_datetime. rewrite H1.
  unfold strptime. rewrite directives_fraction. unfold fraction_format.
  rewrite seen_ascii by ascii_text.
  rewrite match_field_exact by (simpl; (lia || reflexivity)). rewrite match_literal.
  rewrite match_field_exact by (simpl; (lia || reflexivity)). rewrite match_literal.
  rewrite match_field_exact by (simpl; (lia || reflexivity)). rewrite match_literal.
  rewrite match_field_exact by (simpl; (lia || reflexivity)). rewrite match_literal.
  rewrite match_field_exact by (simpl; (lia || reflexivity)). rewrite match_literal.
  rewrite match_field_exact by (simpl; (lia || reflexivity)). rewrite match_literal.
  rewrite match_micro_exact by (lia || reflexivity). rewrite match_literal.
  cbn [regex_match store year month day hour minute second microsecond defaults
       String.eqb negb].
  replace {| year := year d; month := month d; day := day d; hour := hour d;
             minute := minute d; second := second d;
             microsecond := microsecond d |} with d by (now destruct d).
  now rewrite Hv.
Qed.

Lemma fraction_round_trip_witness :
  exists s, strftime (at_ 2011 6 17 14 54 14 120000) "%Y-%m-%dT%H:%M:%S.%fZ" = Return s
            /\ strptime s "%Y-%m-%dT%H:%M:%SZ" = Raise ValueError
            /\ _parse_datetime (make jdoe None) s
               = Return (at_ 2011 6 17 14 54 14 120000).
Proof.
  apply (fraction_round_trip (make jdoe None)); [reflexivity|].
  cbn [year at_]. lia.
Defined.

(** ** str.strip *)
















(** ** The name identifier, by the number of nodes *)

(** X4. With exactly one [NameID] element at the fixed path, and a text in
    it, [_get_name_id] returns that text stripped. *)
Theorem name_id_of_the_one_node (self : Response) (node : element) (t : string) :
  name_ids_of (_document self) = [node] ->
  text node = Some t ->
  _get_name_id self = Return (Str.strip t).
Proof.
  intros Hn Ht. pose proof (name_id_by_count self) as H. rewrite Hn in H.
  rewrite H. unfold text_strip. now rewrite Ht.
Qed.

Lemma name_id_of_the_one_node_witness :
  _get_name_id (make jdoe None) = Return "jdoe@example.com".
Proof.
  apply (name_id_of_the_one_node (make jdoe None)
           (Element (saml "NameID") [] (Some " jdoe@example.com ") [])
           " jdoe@example.com "); reflexivity.
Defined.

(** X5. With no [NameID] element at the fixed path, or with more than one,
    [_get_name_id] raises [ResponseNameIDError], and the message tells the
    two cases apart. *)
Theorem name_id_count_error (self : Response) :
  List.length (name_ids_of (_document self)) <> 1%nat ->
  _get_name_id self
  = Raise (ResponseNameIDError
             (match name_ids_of (_document self) with
              | [] => "Did not find a name ID"
              | _ => "Found more than one name ID"
              end)).
Proof.
  intros Hn. pose proof (name_id_by_count self) as H.
  destruct (name_ids_of (_document self)) as [|n1 [|n2 l]];
    [exact H|now elim Hn|exact H].
Qed.

Lemma name_id_count_error_witness :
  _get_name_id (make (response []) None)
  = Raise (ResponseNameIDError "Did not find a name ID")
  /\ _get_name_id (make twins None)
     = Raise (ResponseNameIDError "Found more than one name ID").
Proof.
  split.
  - apply (name_id_count_error (make (response []) None)). discriminate.
  - apply (name_id_count_error (make twins None)). discriminate.
Defined.



(** ** Attribute values *)

Lemma comprehension_text_strip (l : list element) :
  (forall e, In e l -> text e <> None) ->
  comprehension text_strip l = Return (map stripped_text l).
Proof.
  induction l as [|e l IH]; intros H; simpl; [reflexivity|].
  unfold text_strip at 1, stripped_text at 1.
  destruct (text e) as [t|] eqn:Ht.
  - cbn [bind]. rewrite IH; [reflexivity|]. intros x Hx. apply H. now right.
  - elim (H e (or_introl eq_refl)). exact Ht.
Qed.

Lemma comprehension_text_missing (l : list element) :
  (exists e, In e l /\ text e = None) ->
  comprehension text_strip l = Raise AttributeError.
Proof.
  induction l as [|e l IH]; intros [x [Hx Hn]]; simpl; [destruct Hx|].
  unfold text_strip at 1. destruct (text e) as [t|] eqn:Ht; [|reflexivity].
  cbn [bind]. rewrite IH; [reflexivity|].
  destruct Hx as [->|Hx]; [congruence|]. now exists x.
Qed.


Lemma filter_filter {A : Type} (p q : A -> bool) (l : list A) :
  filter p (filter q l) = filter (fun x => q x && p x) l.
Proof.
  induction l as [|x l IH]; simpl; [reflexivity|].
  destruct (q x); simpl; [destruct (p x)|]; now rewrite IH.
Qed.

(** X7. For a name of plain characters with no double quote in it, the
    query built from the name selects the [AttributeValue] children of the
    [Attribute] elements whose [Name] is the name exactly, in document
    order, and [get_assertion_attribute_value] strips the text of each. *)
Theorem attribute_values_by_exact_name (self : Response) (name : string) :
  Str.all XPath.plain name = true ->
  Str.contains Str.dquote name = false ->
  get_assertion_attribute_value self name
  = comprehension text_strip (values_of (_document self) name).
Proof.
  intros Hplain Hquote. unfold get_assertion_attribute_value.
  rewrite (xpath_attribute self name Hplain Hquote). cbn [bind].
  f_equal. unfold values_of, attributes_named, attributes_of, reach.
  cbn [map].
  change [named (samlp "Response"); named (saml "Assertion");
          named (saml "AttributeStatement"); named (saml "Attribute")]
    with ([named (samlp "Response"); named (saml "Assertion");
           named (saml "AttributeStatement")] ++ [named (saml "Attribute")])%list.
  rewrite descend_app. cbn [XPath.descend]. f_equal. f_equal.
  rewrite filter_filter. apply filter_ext. intros a.
  unfold XPath.matches, named.
  cbn [XPath.step_name XPath.step_predicates forallb XPath.holds XPath.value].
  destruct (String.eqb (tag a) (saml "Attribute")); [|reflexivity].
  destruct (dict_get (attrib a) "Name") as [v|]; [|reflexivity].
  cbn. now destruct (String.eqb v name).
Qed.

Lemma attribute_values_by_exact_name_witness :
  get_assertion_attribute_value (make staff None) "group"
  = comprehension text_strip (values_of staff "group").
Proof.
  apply (attribute_values_by_exact_name (make staff None)); reflexivity.
Defined.

(** X8. For such a name: when every selected [AttributeValue] element has
    a text, the call returns the stripped texts, one for each element and
    in their order; when one of them is an empty element, the call raises
    [AttributeError]. *)
Theorem attribute_values_or_AttributeError (self : Response) (name : string) :
  Str.all XPath.plain name = true ->
  Str.contains Str.dquote name = false ->
  ((forall e, In e (values_of (_document self) name) -> text e <> None) ->
   get_assertion_attribute_value self name
   = Return (map stripped_text (values_of (_document self) name)))
  /\ ((exists e, In e (values_of (_document self) name) /\ text e = None) ->
      get_assertion_attribute_value self name = Raise AttributeError).
Proof.
  intros Hplain Hquote.
  rewrite (attribute_values_by_exact_name self name Hplain Hquote). split.
  - apply comprehension_text_strip.
  - apply comprehension_text_missing.
Qed.

Lemma attribute_values_or_AttributeError_witness :
  get_assertion_attribute_value (make staff None) "group" = Return ["admin"; "users"]
  /\ get_assertion_attribute_value (make hollow None) "uid" = Raise AttributeError.
Proof.
  split.
  - apply (proj1 (attribute_values_or_AttributeError (make staff None) "group"
                    eq_refl eq_refl)).
    intros e [<-|[<-|[]]]; discriminate.
  - apply (proj2 (attribute_values_or_AttributeError (make hollow None) "uid"
                    eq_refl eq_refl)).
    exists (Element (saml "AttributeValue") [] None []). split; [|reflexivity].
    right. left. reflexivity.
Defined.



(** ** is_valid, as a whole *)

Section Verdict.

Variable utcnow : unit -> datetime.
Variable verify : element -> string -> bool.

(** X10. The clock is read once on every run of [is_valid], before
    anything else is called, also on a document with no condition; the
    only call that can follow is the one of the verifier. *)
Theorem clock_is_read_once (self : Response)
  (_clock : option (unit -> datetime))
  (_verifier : option (element -> string -> bool)) :
  let out := is_valid utcnow verify self _clock _verifier [] in
  exists rest, snd out = CallClock :: rest
               /\ ~ In CallClock rest
               /\ (rest = []
                   \/ rest = [CallVerifier (_document self) (_signature self)]).
Proof.
  intros out. subst out. rewrite is_valid_unfold.
  destruct (loop self _ _ _) as [fl| |];
    [destruct (foundCondition fl && fountConditionAndAudience fl)| |];
    cbn [snd]; eexists; (split; [reflexivity|]); simpl;
    intuition discriminate.
Qed.

(** X11. A document with no [Conditions] element is never valid:
    [is_valid] raises the timing error, whatever the clock says, and the
    verifier is not called. *)
Theorem no_condition_no_validity (self : Response)
  (_clock : option (unit -> datetime))
  (_verifier : option (element -> string -> bool)) :
  conditions_of (_document self) = [] ->
  is_valid utcnow verify self _clock _verifier []
  = (Raise (ResponseConditionError "Timmig issue"), [CallClock]).
Proof.
  intros H. rewrite is_valid_unfold, H. reflexivity.
Qed.

(** X12. At a reading of the clock after 1900, [is_valid] is decided by
    the conditions of the document in this order: a timestamp that cannot
    be read gives [ValueError]; else no condition in its window gives the
    timing error; else an issuer that is given and named among the
    audiences of the document gives the answer of the verifier; else the
    audience error. *)
Theorem is_valid_verdict (self : Response)
  (_clock : option (unit -> datetime))
  (_verifier : option (element -> string -> bool)) :
  clock_reading (default _clock utcnow tt) = true ->
  is_valid utcnow verify self _clock _verifier []
  = verdict self (default _clock utcnow tt)
      (default _verifier verify (_document self) (_signature self)).
Proof.
  intros Hv. rewrite is_valid_unfold. unfold verdict.
  destruct (forallb (readable self) (conditions_of (_document self))) eqn:Hr;
    cbn [negb].
  - rewrite (loop_readable self _ _ Hv Hr).
    cbn [foundCondition fountConditionAndAudience orb].
    destruct (existsb _ _); cbn [negb andb]; [|reflexivity].
    destruct (truthy (_issuer self) && issuer_in _ _); reflexivity.
  - now rewrite (loop_unreadable self _ _ Hv Hr).
Qed.

(** X13. An issuer that is the empty string is no issuer: [is_valid] does
    the same with it as with [None], on every document. *)
Theorem empty_issuer_is_no_issuer (doc : element) (signature : string)
  (_clock : option (unit -> datetime))
  (_verifier : option (element -> string -> bool)) :
  is_valid utcnow verify
    {| _document := doc; _signature := signature; _issuer := Some "" |}
    _clock _verifier []
  = is_valid utcnow verify
      {| _document := doc; _signature := signature; _issuer := None |}
      _clock _verifier [].
Proof.
  rewrite !is_valid_unfold. cbn [_document _signature].
  assert (Hl : forall now cs fl,
             loop {| _document := doc; _signature := signature; _issuer := Some "" |}
               now cs fl
             = loop {| _document := doc; _signature := signature; _issuer := None |}
                 now cs fl).
  { intros now cs. induction cs as [|c cs IH]; intros fl; [reflexivity|].
    cbn [loop].
    replace (loop_body {| _document := doc; _signature := signature;
                          _issuer := Some "" |} now c fl)
      with (loop_body {| _document := doc; _signature := signature;
                         _issuer := None |} now c fl) by reflexivity.
    destruct (loop_body _ now c fl); cbn [bind]; [apply IH|reflexivity..]. }
  now rewrite Hl.
Qed.

(** X14. A response that the constructor built is checked as it was
    given: the two decoders succeeded, and when [is_valid] returns, what
    it returns is the answer of the verifier on the document parsed from
    the decoded text and on the signature handed to the constructor. *)
Theorem constructed_response_is_verified_as_given
  (_base64 : string -> outcome string) (_etree : string -> outcome element)
  (response signature : string) (issuer : option string) (self : Response)
  (_clock : option (unit -> datetime))
  (_verifier : option (element -> string -> bool)) (b : bool) :
  __init__ _base64 _etree response signature issuer = Return self ->
  fst (is_valid utcnow verify self _clock _verifier []) = Return b ->
  exists decoded document,
    _base64 response = Return decoded
    /\ _etree decoded = Return document
    /\ b = default _verifier verify document signature
    /\ snd (is_valid utcnow verify self _clock _verifier [])
       = [CallClock; CallVerifier document signature].
Proof.
  unfold __init__. destruct (_base64 response) as [decoded| |]; cbn [bind];
    try discriminate.
  destruct (_etree decoded) as [document| |] eqn:He; cbn [bind];
    try discriminate.
  intros [= <-]. rewrite is_valid_unfold. cbn [_document _signature].
  exists decoded, document. split; [reflexivity|]. split; [exact He|].
  destruct (loop _ _ _ _) as [fl| |];
    [destruct (foundCondition fl && fountConditionAndAudience fl)| |];
    cbn [fst snd] in *; try discriminate.
  split; [congruence|reflexivity].
Qed.

End Verdict.

Lemma no_condition_no_validity_witness :
  is_valid Examples.utcnow Examples.verify (make jdoe sp) (clock noon)
    (verifier true) []
  = (Raise (ResponseConditionError "Timmig issue"), [CallClock]).
Proof.
  apply (no_condition_no_validity Examples.utcnow Examples.verify (make jdoe sp)).
  reflexivity.
Defined.

(** X12, with the block of today in its window: for another issuer the
    audience error, for the one it names the answer of the verifier. *)
Lemma is_valid_verdict_witness :
  is_valid Examples.utcnow Examples.verify
    (make (response [today]) (Some "other.example.com")) (clock noon)
    (verifier true) []
  = (Raise (ResponseConditionError "Not valid Audience"), [CallClock])
  /\ is_valid Examples.utcnow Examples.verify
       (make (response [today]) sp) (clock noon) (verifier false) []
     = (Return false, [CallClock; CallVerifier (response [today]) "fingerprint"]).
Proof.
  split.
  - apply (is_valid_verdict Examples.utcnow Examples.verify
             (make (response [today]) (Some "other.example.com")) (clock noon)
             (verifier true)).
    reflexivity.
  - apply (is_valid_verdict Examples.utcnow Examples.verify
             (make (response [today]) sp) (clock noon) (verifier false)).
    reflexivity.
Defined.

Lemma constructed_response_is_verified_as_given_witness :
  exists decoded document,
    as_it_is "PHNhbWw+" = Return decoded
    /\ parsed decoded = Return document
    /\ false = default (verifier false) Examples.verify document "fingerprint"
    /\ snd (is_valid Examples.utcnow Examples.verify (make (response [today]) sp)
              (clock noon) (verifier false) [])
       = [CallClock; CallVerifier document "fingerprint"].
Proof.
  apply (constructed_response_is_verified_as_given Examples.utcnow Examples.verify
           as_it_is parsed "PHNhbWw+" "fingerprint" sp
           (make (response [today]) sp) (clock noon) (verifier false) false);
    reflexivity.
Defined.

(** ** The ends of a window *)

Lemma lex_lt_irrefl (l : list Z) : lex_lt l l = false.
Proof.
  induction l as [|x l IH]; [reflexivity|]. simpl.
  now rewrite Z.ltb_irrefl, IH, andb_false_r.
Qed.

Lemma dt_lt_irrefl (d : datetime) : dt_lt d d = false.
Proof. apply lex_lt_irrefl. Qed.

(** X15. The window of a condition is closed at its start and open at its
    end: at the very instant of [NotBefore] a turn of the loop sets
    [foundCondition] (when [NotOnOrAfter] is later), and at the very
    instant of [NotOnOrAfter] it leaves the flags as they are. *)
Theorem window_is_half_open (self : Response) (now : datetime) (c : element)
  (fl : flags) (noa : string) :
  clock_reading now = true ->
  readable self c = true ->
  dict_get (attrib c) "NotOnOrAfter" = Some noa ->
  (forall nb upper,
      dict_get (attrib c) "NotBefore" = Some nb ->
      _parse_datetime self nb = Return now ->
      _parse_datetime self noa = Return upper ->
      dt_lt now upper = true ->
      exists fl', loop_body self now c fl = Return fl'
                  /\ foundCondition fl' = true)
  /\ (_parse_datetime self noa = Return now ->
      loop_body self now c fl = Return fl).
Proof.
  intros Hv Hr Hnoa. rewrite (loop_body_readable self now c fl Hv Hr).
  unfold in_window. rewrite Hnoa. split.
  - intros nb upper Hnb Hl Hu Hlt. eexists. split; [reflexivity|].
    cbn [foundCondition]. unfold lower_bound. rewrite Hnb, Hl, Hu, Hlt.
    unfold dt_le. rewrite dt_lt_irrefl. apply orb_true_r.
  - intros Hu. rewrite Hu, dt_lt_irrefl.
    destruct (lower_bound self now c);
      rewrite ?andb_false_r, ?andb_false_l, !orb_false_r; now rewrite flags_eta.
Qed.

Lemma window_is_half_open_witness :
  (exists fl', loop_body (make (response [from_noon]) sp) noon from_noon
                 {| foundCondition := false; fountConditionAndAudience := false |}
               = Return fl'
               /\ foundCondition fl' = true)
  /\ loop_body (make (response [until_noon]) sp) noon until_noon
       {| foundCondition := false; fountConditionAndAudience := false |}
     = Return {| foundCondition := false; fountConditionAndAudience := false |}.
Proof.
  split.
  - apply (proj1 (window_is_half_open (make (response [from_noon]) sp) noon
                    from_noon _ "2011-06-18T00:00:00Z" eq_refl eq_refl eq_refl)
             "2011-06-17T12:00:00Z" (at_ 2011 6 18 0 0 0 0));
      reflexivity.
  - apply (proj2 (window_is_half_open (make (response [until_noon]) sp) noon
                    until_noon _ "2011-06-17T12:00:00Z" eq_refl eq_refl eq_refl)).
    reflexivity.
Defined.

(** ** The order of the conditions *)

Lemma existsb_Permutation {A : Type} (p : A -> bool) (l l' : list A) :
  Permutation l l' -> existsb p l = existsb p l'.
Proof.
  induction 1; simpl; try congruence.
  now rewrite !orb_assoc, (orb_comm (p y)).
Qed.

Lemma forallb_Permutation {A : Type} (p : A -> bool) (l l' : list A) :
  Permutation l l' -> forallb p l = forallb p l'.
Proof.
  induction 1; simpl; try congruence.
  now rewrite !andb_assoc, (andb_comm (p y)).
Qed.

(** X16. The loop of [is_valid] does not depend on the order in which it
    meets the conditions: at a reading of the clock after 1900, walking
    them in another order ends with the same flags, or with the same
    error. *)
Theorem loop_in_any_order (self : Response) (now : datetime)
  (cs cs' : list element) (fl : flags) :
  clock_reading now = true ->
  Permutation cs cs' ->
  loop self now cs fl = loop self now cs' fl.
Proof.
  intros Hv Hp.
  destruct (forallb (readable self) cs) eqn:Hr.
  - rewrite (loop_readable self now cs Hv Hr).
    rewrite (forallb_Permutation _ _ _ Hp) in Hr.
    rewrite (loop_readable self now cs' Hv Hr).
    now rewrite (existsb_Permutation _ _ _ Hp).
  - rewrite (loop_unreadable self now cs Hv Hr).
    rewrite (forallb_Permutation _ _ _ Hp) in Hr.
    now rewrite (loop_unreadable self now cs' Hv Hr).
Qed.

Lemma loop_in_any_order_witness :
  loop (make (response [yesterday; today]) sp) noon [yesterday; today]
    {| foundCondition := false; fountConditionAndAudience := false |}
  = loop (make (response [yesterday; today]) sp) noon [today; yesterday]
      {| foundCondition := false; fountConditionAndAudience := false |}.
Proof.
  apply (loop_in_any_order (make (response [yesterday; today]) sp) noon
           [yesterday; today] [today; yesterday]).
  - reflexivity.
  - apply perm_swap.
Defined.

(** ** The text of the exceptions *)

(** X17. The text of an exception of the module, its docstring, a colon
    and the message, tells which of the three classes it is and what its
    message was: two exceptions with the same text are the same. *)
Theorem exn_str_tells_the_exception (e1 e2 : exn) :
  of_this_module e1 = true ->
  of_this_module e2 = true ->
  exn_str e1 = exn_str e2 ->
  e1 = e2.
Proof.
  destruct e1, e2; simpl; try discriminate; intros _ _ H;
    try discriminate H; injection H as ->; reflexivity.
Qed.

Lemma exn_str_tells_the_exception_witness :
  ResponseConditionError "Timmig issue" = ResponseConditionError "Timmig issue".
Proof.
  apply exn_str_tells_the_exception; reflexivity.
Defined.
